(** * Passbolt browser extension: login orchestration, passphrase dialog
      and user settings

    A shallow embedding of three source files of the extension:
    - [background_page/controller/authController.js] (module [Auth]),
    - the master password dialog script (module [MasterPassword]),
    - the user settings model (module [Settings]).

    JavaScript values are a small inductive type, objects are finite maps
    from property names to values, and every function that can throw or
    touch shared state is a computation in a state-and-exception monad. *)

From Stdlib Require Import Ascii.
From stdpp Require Import gmap strings list fin_maps pretty.

Set Warnings "-register-all".
#[local] Open Scope Z_scope.
#[local] Open Scope string_scope.

(** ** JavaScript values *)

Module Js.

(** Numbers are restricted to integers: the code only tests their
    truthiness, compares an attempt counter and concatenates them. *)
Inductive value :=
| Undefined
| Null
| Bool (b : bool)
| Num (n : Z)
| Str (s : string)
| StringObj (s : string)
| Obj (fields : gmap string value).

(** What [throw] carries: an [Error] object, by its [name] and [message]. *)
Record error := Error { name : string; message : string }.

Definition mkError (msg : string) : error := Error "Error" msg.
Definition TypeError (msg : string) : error := Error "TypeError" msg.

Inductive result (A : Type) :=
| Ok (a : A)
| Throw (e : error).
Arguments Ok {A} a.
Arguments Throw {A} e.

(** [typeof v === 'undefined'] *)
Definition typeof_undefined (v : value) : bool :=
  match v with Undefined => true | _ => false end.

(** [typeof v === 'string' || v instanceof String] *)
Definition is_string (v : value) : bool :=
  match v with Str _ | StringObj _ => true | _ => false end.

(** ToBoolean *)
Definition truthy (v : value) : bool :=
  match v with
  | Undefined | Null => false
  | Bool b => b
  | Num n => negb (Z.eqb n 0)
  | Str s => negb (String.eqb s "")
  | StringObj _ | Obj _ => true
  end.

(** ToString, as used by [+] with a string operand and by [new URL]. *)
Definition to_string (v : value) : string :=
  match v with
  | Undefined => "undefined"
  | Null => "null"
  | Bool true => "true"
  | Bool false => "false"
  | Num n => pretty n
  | Str s | StringObj s => s
  | Obj _ => "[object Object]"
  end.

(** [o.f] for a data property [f]. Reading a property of [undefined] or
    [null] throws; the primitive wrappers have none of the properties the
    code reads ([color], [code], [textcolor]). *)
Definition get_prop (o : value) (f : string) : result value :=
  match o with
  | Undefined => Throw (TypeError ("Cannot read properties of undefined (reading '" ++ f ++ "')"))
  | Null => Throw (TypeError ("Cannot read properties of null (reading '" ++ f ++ "')"))
  | Obj fields => Ok (default Undefined (fields !! f))
  | _ => Ok Undefined
  end.

(** [s.charAt(0) !== '/'] *)
Definition charAt0_is_not_slash (s : string) : bool :=
  match s with
  | String c _ => negb (Ascii.eqb c "/"%char)
  | EmptyString => true
  end.

End Js.

Import Js.

(** ** Computations: shared state and exceptions *)

Definition M (S A : Type) : Type := S -> result A * S.

#[export] Instance M_ret {S} : MRet (M S) := fun A a s => (Ok a, s).

Definition throw {S A} (e : error) : M S A := fun s => (Throw e, s).

#[export] Instance M_bind {S} : MBind (M S) := fun A B k m s =>
  match m s with
  | (Ok a, s') => k a s'
  | (Throw e, s') => (Throw e, s')
  end.

(** [try { m } catch (error) { h error }] *)
Definition try_catch {S A} (m : M S A) (h : error -> M S A) : M S A :=
  fun s =>
    match m s with
    | (Ok a, s') => (Ok a, s')
    | (Throw e, s') => h e s'
    end.

Definition lift {S A} (r : result A) : M S A := fun s => (r, s).

Definition modify {S} (f : S -> S) : M S unit := fun s => (Ok tt, f s).

Definition gets {S A} (f : S -> A) : M S A := fun s => (Ok (f s), s).

(** ** The Config store *)

(** The store's content: what is kept under each key. *)
Record Store := { config : gmap string value }.

Definition with_config (f : gmap string value -> gmap string value) (w : Store) : Store :=
  {| config := f (config w) |}.

(** Modelled from the spec: the Config store, a key-value collaborator with
    [read(key) -> value | undefined] and [write(key, value)]. *)
Module Config.

Definition read (key : string) : M Store value :=
  gets (fun w => default Undefined (config w !! key)).

Definition write (key : string) (v : value) : M Store unit :=
  modify (with_config (insert key v)).

End Config.

(** What the vendored libraries and the platform provide. *)
Class Vendors := {
  (** [Validator.isHexColor] *)
  isHexColor : value -> bool;
  (** [require('sdk/l10n').get] *)
  l10n : string -> string;
  (** [new URL(s).href], [None] when the constructor throws *)
  URL_href : string -> option string;
  (** [port.getEmitableError] *)
  getEmitableError : error -> value
}.

(** ** User settings *)

Module Settings.

Section WithVendors.
Context `{Vendors}.

Definition __validateToken (token : value) : M Store bool :=
  if typeof_undefined token then throw (mkError (l10n "A token cannot be empty")) else
  color ← lift (get_prop token "color");
  if typeof_undefined color then throw (mkError (l10n "A token color cannot be empty")) else
  code ← lift (get_prop token "code");
  if typeof_undefined code then throw (mkError (l10n "A token code cannot be empty")) else
  textcolor ← lift (get_prop token "textcolor");
  if typeof_undefined textcolor then throw (mkError (l10n "A token text color cannot be empty")) else
  color ← lift (get_prop token "color");
  if negb (isHexColor color) then
    throw (mkError (l10n ("This is not a valid token color: " ++ to_string color))) else
  textcolor ← lift (get_prop token "textcolor");
  if negb (isHexColor textcolor) then
    throw (mkError (l10n ("This is not a valid token text color: " ++ to_string textcolor))) else
  mret true.

Definition getSecurityToken : M Store value :=
  code ← Config.read "securityToken.code";
  color ← Config.read "securityToken.color";
  textcolor ← Config.read "securityToken.textColor";
  let token := Obj (<["textcolor" := textcolor]> (<["color" := color]> (<["code" := code]> ∅))) in
  if typeof_undefined code || typeof_undefined color || typeof_undefined textcolor
  then throw (mkError (l10n "Security token is not set"))
  else mret token.

Definition setSecurityToken (token : value) : M Store bool :=
  __validateToken token;;
  code ← lift (get_prop token "code");
  Config.write "securityToken.code" code;;
  color ← lift (get_prop token "color");
  Config.write "securityToken.color" color;;
  textcolor ← lift (get_prop token "textcolor");
  Config.write "securityToken.textColor" textcolor;;
  mret true.

(** The field [f] of a token, [Undefined] when it has none. *)
Definition field (token : value) (f : string) : value :=
  match token with
  | Obj fields => default Undefined (fields !! f)
  | _ => Undefined
  end.

(** The rejection condition in the words of the specification: the token
    is undefined, one of its three fields is missing, or one of the two
    colours is not a hex colour. *)
Definition token_rejected (token : value) : bool :=
  typeof_undefined token
  || typeof_undefined (field token "color")
  || typeof_undefined (field token "code")
  || typeof_undefined (field token "textcolor")
  || negb (isHexColor (field token "color"))
  || negb (isHexColor (field token "textcolor")).

(** The config store after the three writes of an accepted token. *)
Definition token_written (token : value) (w : Store) : Store :=
  with_config (fun c =>
    <["securityToken.textColor" := field token "textcolor"]>
      (<["securityToken.color" := field token "color"]>
        (<["securityToken.code" := field token "code"]> c))) w.

(** What the Config module and the validator provide besides:
    [Config.isDebug()], which may depend on what the store holds, and
    [Validator.isURL]. *)
Variable isDebug : Store -> bool.
Variable isURL : value -> bool.

Definition __validateDomain (domain : value) : M Store bool :=
  if typeof_undefined domain then throw (mkError (l10n "A domain cannot be empty")) else
  if negb (isURL domain) then
    throw (mkError (l10n "The trusted domain url is not valid")) else
  mret true.

(** [setDomain] returns what [Config.write] returns. *)
Definition setDomain (domain : value) : M Store unit :=
  __validateDomain domain;;
  Config.write "trustedDomain" domain.

Definition getDomain : M Store value :=
  domain ← Config.read "trustedDomain";
  if typeof_undefined domain then
    debug ← gets isDebug;
    if negb debug then throw (mkError (l10n "Trusted domain is not set"))
    else
      domain ← Config.read "baseUrl";
      if typeof_undefined domain
      then throw (mkError (l10n "Base url not found in config"))
      else mret domain
  else mret domain.

Definition isValid : M Store bool :=
  try_catch (getSecurityToken;; getDomain;; mret true) (fun _ => mret false).

(** A key of the store holds a value. *)
Definition is_set (key : string) (w : Store) : bool :=
  negb (typeof_undefined (default Undefined (config w !! key))).

(** The three keys of the security token are set. *)
Definition token_set (w : Store) : bool :=
  is_set "securityToken.code" w && is_set "securityToken.color" w
  && is_set "securityToken.textColor" w.

(** A domain can be read: the trusted domain is set, or the debug switch
    is on and the base url is set. *)
Definition domain_available (w : Store) : bool :=
  is_set "trustedDomain" w || isDebug w && is_set "baseUrl" w.

End WithVendors.

End Settings.

(** ** The authentication controller *)

Module Auth.

Record PageMod := { args_name : string }.

Record Tab := { id : Z }.

Inductive Port := PortId (n : Z).

(** A worker: its pagemod when a pagemod attached it, its tab and its
    port. *)
Record Worker := {
  pageMod : option PageMod;
  tab : Tab;
  port : Port
}.

(** The controller object: [this.worker], [this.requestId] and the
    [this._tabId] that [_beforeLogin] assigns. *)
Record AuthController := {
  worker : Worker;
  requestId : string;
  _tabId : option Z
}.

(** What the controller does to the outside, in order. *)
Inductive Event :=
| CsrfFetch
| CryptoLogin (passphrase : string)
| IsLoggedIn
| SettingsSync
| SetDefaults
| StoreMasterPassword (passphrase : string) (seconds : value)
| PassboltAppInit
| ConsoleError (msg : string)
| Emit (p : Port) (channel : string) (args : list value).

(** The background page: the Config store, the worker registry, the
    remembered passphrase, the events so far and the rejections of
    promises nobody awaits. *)
Record Page := {
  store : Store;
  workers : gmap (string * Z) Port;
  remembered : option (string * value);
  trace : list Event;
  unhandled : list error
}.

Definition St : Type := AuthController * Page.

(** The outcome of each awaited collaborator: the remote API, the crypto
    engine and the application pagemod. They are opaque to the controller:
    a call shows in the trace and returns or throws, and leaves the Config
    store and the worker registry as they are. *)
Record Remote := {
  retrieveAndStoreCsrfToken : result unit;
  auth_login : string -> result unit;
  isLoggedIn : result unit;
  settings_sync : result unit;
  PassboltApp_init : result unit
}.

Definition log (ev : Event) : M St unit :=
  modify (fun '(c, pg) =>
    (c, {| store := store pg; workers := workers pg; remembered := remembered pg;
           trace := trace pg ++ [ev]; unhandled := unhandled pg |})).

Definition this : M St AuthController := gets fst.

(** [this._tabId = t] *)
Definition set_tabId (t : Z) : M St unit :=
  modify (fun '(c, pg) =>
    ({| worker := worker c; requestId := requestId c; _tabId := Some t |}, pg)).

(** [await] on a collaborator: the call is made, then its outcome is
    returned or thrown. *)
Definition await_call (ev : Event) (outcome : result unit) : M St unit :=
  log ev;; lift outcome.

(** A call of an [async] function that is not awaited: what it throws
    rejects a promise nobody holds, and the caller goes on. *)
Definition detach (m : M St unit) : M St unit := fun s =>
  match m s with
  | (Ok _, s') => (Ok tt, s')
  | (Throw e, (c, pg)) =>
      (Ok tt, (c, {| store := store pg; workers := workers pg; remembered := remembered pg;
                     trace := trace pg; unhandled := unhandled pg ++ [e] |}))
  end.

(** [Config.read] on the page's store. *)
Definition Config_read (key : string) : M St value := fun '(c, pg) =>
  match Config.read key (store pg) with
  | (r, _) => (r, (c, pg))
  end.

(** Modelled from the spec: [Worker.get(name, tabId)] of the worker
    registry, which fails when no live worker has that identity; what it
    returns is used for its port only. *)
Definition Worker_get_port (name : string) (tabId : option Z) : M St Port :=
  pg ← gets snd;
  match tabId with
  | Some t =>
      match workers pg !! (name, t) with
      | Some p => mret p
      | None => throw (mkError ("Could not find worker " ++ name))
      end
  | None => throw (mkError ("Could not find worker " ++ name))
  end.

(** [port.emit(channel, ...args)] *)
Definition emit (p : Port) (channel : string) (args : list value) : M St unit :=
  log (Emit p channel args).

(** Modelled from the spec: [user.storeMasterPasswordTemporarily], which
    puts the passphrase in the remembered-passphrase cache for the given
    duration. *)
Definition storeMasterPasswordTemporarily (passphrase : string) (seconds : value) : M St unit :=
  log (StoreMasterPassword passphrase seconds);;
  modify (fun '(c, pg) =>
    (c, {| store := store pg; workers := workers pg;
           remembered := Some (passphrase, seconds);
           trace := trace pg; unhandled := unhandled pg |})).

(** [this.worker.pageMod && this.worker.pageMod.args.name == "AuthForm"] *)
Definition is_AuthForm (w : Worker) : bool :=
  match pageMod w with
  | Some pm => String.eqb (args_name pm) "AuthForm"
  | None => false
  end.

(** The test on [redirect] in [_handleLoginSuccess]. *)
Definition redirect_unusable (redirect : value) : bool :=
  negb (truthy redirect)
  || negb (is_string redirect)
  || match redirect with
     | Str s | StringObj s => charAt0_is_not_slash s
     | _ => true
     end.

Section WithCollaborators.
Context `{Vendors} (remote : Remote).

(** [new URL(s).href] *)
Definition new_URL_href (s : string) : M St string :=
  match URL_href s with
  | Some href => mret href
  | None => throw (TypeError ("Invalid URL: " ++ s))
  end.

Definition _beforeLogin : M St unit :=
  c ← this;
  if is_AuthForm (worker c) then
    set_tabId (id (tab (worker c)));;
    c ← this;
    p ← Worker_get_port "Auth" (_tabId c);
    emit p "passbolt.auth.login-processing" [Str (l10n "Logging in")]
  else mret tt.

Definition _checkMfaAuthentication : M St unit :=
  c ← this;
  match pageMod (worker c) with
  | None => await_call IsLoggedIn (isLoggedIn remote)
  | Some _ => mret tt
  end.

Definition _syncUserSettings : M St unit :=
  try_catch (await_call SettingsSync (settings_sync remote))
    (fun error =>
       log (ConsoleError "User settings sync failed");;
       log (ConsoleError (message error));;
       log SetDefaults).

Definition _handleLoginSuccess (redirect : value) : M St unit :=
  await_call PassboltAppInit (PassboltApp_init remote);;
  c ← this;
  if is_AuthForm (worker c) then
    trustedDomain ← Config_read "user.settings.trustedDomain";
    redirect ←
      (if redirect_unusable redirect
       then new_URL_href (to_string trustedDomain)
       else new_URL_href (to_string trustedDomain ++ to_string redirect));
    let msg := l10n "You are now logged in!" in
    p ← Worker_get_port "Auth" (_tabId c);
    emit p "passbolt.auth.login-success" [Str msg; Str redirect]
  else
    emit (port (worker c)) (requestId c) [Str "SUCCESS"].

Definition _handleLoginError (error : error) : M St unit :=
  c ← this;
  if is_AuthForm (worker c) then
    p ← Worker_get_port "Auth" (_tabId c);
    emit p "passbolt.auth.login-failed" [Str (message error)]
  else
    emit (port (worker c)) (requestId c) [Str "ERROR"; getEmitableError error].

Definition login (passphrase : string) (remember redirect : value) : M St unit :=
  try_catch
    (_beforeLogin;;
     await_call CsrfFetch (retrieveAndStoreCsrfToken remote);;
     await_call (CryptoLogin passphrase) (auth_login remote passphrase);;
     _checkMfaAuthentication;;
     _syncUserSettings;;
     (if truthy remember
      then storeMasterPasswordTemporarily passphrase remember
      else mret tt);;
     detach (_handleLoginSuccess redirect))
    (fun error => _handleLoginError error).

(** [verify], on the outcome of the crypto engine's [verify]; the call
    itself leaves no event. *)
Definition verify (auth_verify : result unit) : M St unit :=
  try_catch
    (lift auth_verify;;
     let msg :=
       l10n "The server key is verified. The server can use it to sign and decrypt content." in
     c ← this;
     emit (port (worker c)) (requestId c) [Str "SUCCESS"; Str msg])
    (fun error =>
       let msg := l10n "Could not verify server key." ++ " " ++ message error in
       c ← this;
       emit (port (worker c)) (requestId c) [Str "ERROR"; Str msg]).

End WithCollaborators.

End Auth.

(** ** The master password dialog *)

Module MasterPassword.

(** What the dialog script does to the page and to the addon, in order. *)
Inductive Effect :=
| RemoveClass (selector cls : string)
| AddClass (selector cls : string)
| Focus (selector : string)
| SetHtml (selector html : string)
| LoadTemplate (target path : string)
| MessageEmit (channel : string) (args : list value)
| Request (channel : string) (args : list value)
| PortEmit (channel : string) (args : list value)
| PreventDefault.

(** The page as the script sees it. [global_masterPassword] is what the
    identifier [masterPassword] resolves to outside the functions that
    declare it: [rememberMasterPassword] neither declares nor receives
    it, so there it is looked up in the enclosing scopes, and the lookup
    throws a [ReferenceError] when no scope binds it. *)
Record Dialog := {
  masterPasswordField_val : string;
  remember_checked : bool;
  context_token : value;
  global_masterPassword : option value;
  effects : list Effect
}.

Definition perform (e : Effect) : M Dialog unit :=
  modify (fun d =>
    {| masterPasswordField_val := masterPasswordField_val d;
       remember_checked := remember_checked d;
       context_token := context_token d;
       global_masterPassword := global_masterPassword d;
       effects := effects d ++ [e] |}).

Definition ReferenceError (ident : string) : error :=
  Error "ReferenceError" (ident ++ " is not defined").

(** [status == 'ERROR']: loose equality with a string that is not a
    numeric literal, so that a number or a boolean never equals it. *)
Definition loose_eq_word (v : value) (word : string) : bool :=
  match v with
  | Str s | StringObj s => String.eqb s word
  | Obj _ => String.eqb "[object Object]" word
  | Undefined | Null | Bool _ | Num _ => false
  end.

Definition submitButton : string := "#master-password-submit".
Definition masterPasswordField : string := "#js_master_password".
(** The selector of the passphrase label, [label[for=..]] with the
    field's id between double quotes. *)
Definition passphraseLabel : string :=
  let dq := String (ascii_of_nat 34) EmptyString in
  "label[for=" ++ dq ++ "js_master_password" ++ dq ++ "]".

Definition closeDialog : M Dialog unit :=
  perform (MessageEmit "passbolt.master-password.close-dialog" []).

Definition rememberMasterPassword (time : value) : M Dialog unit :=
  let time := if truthy time then time else Num 300 in
  d ← gets (fun d => d);
  match global_masterPassword d with
  | Some masterPassword =>
      perform (Request "passbolt.user.rememberMasterPassword" [masterPassword; time])
  | None => throw (ReferenceError "masterPassword")
  end.

Definition submitMasterPassword (masterPassword : string) : M Dialog unit :=
  perform (AddClass submitButton "processing");;
  d ← gets (fun d => d);
  perform (PortEmit "passbolt.keyring.master.request.submit"
             [context_token d; Str masterPassword]).

(** The attempt counter is the number the addon sends. *)
Definition masterCompleteHandler (token status : value) (attempts : Z) : M Dialog unit :=
  if loose_eq_word status "ERROR" then
    perform (RemoveClass submitButton "processing");;
    perform (Focus masterPasswordField);;
    if Z.ltb attempts 3 then
      perform (SetHtml passphraseLabel "Please enter a valid passphrase.");;
      perform (AddClass passphraseLabel "error")
    else
      perform (LoadTemplate ".js_dialog_content" "./tpl/master/master-password-failure.ejs")
  else mret tt.

Definition closeButtonClicked : M Dialog unit :=
  perform PreventDefault;; closeDialog.

Definition submitButtonClicked : M Dialog unit :=
  masterPassword ← gets masterPasswordField_val;
  checked ← gets remember_checked;
  (if checked : bool then rememberMasterPassword Undefined else mret tt);;
  submitMasterPassword masterPassword.

Definition masterPasswordFieldKeypressed (keycode : Z) : M Dialog unit :=
  if Z.eqb keycode 13 then
    masterPassword ← gets masterPasswordField_val;
    submitMasterPassword masterPassword
  else if Z.eqb keycode 27 then closeDialog
  else mret tt.

(** A key event by its [keyCode] and [which]; a property the event lacks
    reads as 0, which [||] treats as it treats [undefined]. *)
Record KeyEvent := { keyCode : Z; which : Z }.

(** [ev.keyCode || ev.which] *)
Definition keycode_of (ev : KeyEvent) : Z :=
  if Z.eqb (keyCode ev) 0 then which ev else keyCode ev.

(** The code unit of the one-character string [String.fromCharCode(keycode)]. *)
Definition fromCharCode (keycode : Z) : Z := keycode mod 65536.

(** The test of the regular expression of the script on a string of one
    code unit: [0x20] to [0x7e] or [0xa0] to [0xff]. *)
Definition printable (unit : Z) : bool :=
  Z.leb 32 unit && Z.leb unit 126 || Z.leb 160 unit && Z.leb unit 255.

(** A code unit below 256 as a string of one character. *)
Definition char_string (unit : Z) : string :=
  String (ascii_of_N (Z.to_N unit)) EmptyString.

(** [$masterPasswordField.val(s)] *)
Definition set_val (s : string) : M Dialog unit :=
  modify (fun d =>
    {| masterPasswordField_val := s;
       remember_checked := remember_checked d;
       context_token := context_token d;
       global_masterPassword := global_masterPassword d;
       effects := effects d |}).

Definition focusFirstField : string := "#js_master_password_focus_first".

Definition focusFirstFieldKeypressed (ev : KeyEvent) : M Dialog unit :=
  perform PreventDefault;;
  let keycode := keycode_of ev in
  let char := fromCharCode keycode in
  let valid := printable char in
  if Z.eqb keycode 27 then closeDialog
  else
    (if valid || Z.eqb keycode 9 then perform (Focus masterPasswordField) else mret tt);;
    (if valid then set_val (char_string char) else mret tt).

(** One firing of the interval of [stealFocus]: the focus is requested,
    and the firing clears the interval and resolves the deferred when the
    field then has the focus ([has_focus]). *)
Definition stealFocus_fire (has_focus : bool) : M Dialog bool :=
  perform (Focus focusFirstField);;
  mret has_focus.

(** The firings of the interval, each with whether the field got the
    focus, until one clears it. The result tells whether the deferred was
    resolved. *)
Fixpoint stealFocus_interval (firings : list bool) : M Dialog bool :=
  match firings with
  | [] => mret false
  | has_focus :: later =>
      cleared ← stealFocus_fire has_focus;
      if cleared : bool then mret true else stealFocus_interval later
  end.

Definition stealFocus (firings : list bool) : M Dialog bool :=
  perform (MessageEmit "passbolt.passbolt-page.remove_all_focuses" []);;
  stealFocus_interval firings.

(** What was appended to the effects between two states of the dialog. *)
Definition effects_since (d d' : Dialog) : list Effect :=
  drop (length (effects d)) (effects d').

End MasterPassword.

(** ** Vocabulary for the properties of the login *)

Module LoginSpec.
Import Auth.

(** What was appended to the trace between two pages. *)
Definition events_since (pg pg' : Page) : list Event :=
  drop (length (trace pg)) (trace pg').

(** The four login steps among the events. *)
Definition is_step (ev : Event) : bool :=
  match ev with
  | CsrfFetch | CryptoLogin _ | IsLoggedIn | SettingsSync => true
  | _ => false
  end.

Definition steps (t : list Event) : list Event := List.filter is_step t.

Definition is_emit (ev : Event) : bool :=
  match ev with Emit _ _ _ => true | _ => false end.

Definition emits (t : list Event) : list Event := List.filter is_emit t.

Definition logged (evs : list Event) (pg : Page) : Page :=
  {| store := store pg; workers := workers pg; remembered := remembered pg;
     trace := trace pg ++ evs; unhandled := unhandled pg |}.

Definition rejected (e : error) (pg : Page) : Page :=
  {| store := store pg; workers := workers pg; remembered := remembered pg;
     trace := trace pg; unhandled := unhandled pg ++ [e] |}.

(** The port of the ['Auth'] worker of the tab the controller recorded. *)
Definition auth_port (c : AuthController) (pg : Page) : option Port :=
  t ← _tabId c; workers pg !! ("Auth", t).

Definition starts_with_slash (v : value) : bool :=
  match v with
  | Str (String c _) | StringObj (String c _) => Ascii.eqb c "/"
  | _ => false
  end.

(** What the redirect URL is parsed from, in the words of the
    specification: the trusted domain alone when the redirect is missing,
    is not a string or does not start with a slash, and otherwise the
    trusted domain followed by the redirect. *)
Definition redirect_target (trustedDomain redirect : value) : string :=
  if typeof_undefined redirect || negb (is_string redirect)
     || negb (starts_with_slash redirect)
  then to_string trustedDomain
  else to_string trustedDomain ++ to_string redirect.

Definition trustedDomain (pg : Page) : value :=
  default Undefined (config (store pg) !! "user.settings.trustedDomain").

Section WithCollaborators.
Context `{Vendors} (remote : Remote).

(** The error of the first of the three fatal steps that fails. *)
Definition first_failure (wk : Worker) (passphrase : string) : option error :=
  match retrieveAndStoreCsrfToken remote with
  | Throw e => Some e
  | Ok _ =>
      match auth_login remote passphrase with
      | Throw e => Some e
      | Ok _ =>
          match pageMod wk, isLoggedIn remote with
          | None, Throw e => Some e
          | _, _ => None
          end
      end
  end.

(** The steps in the order of the specification, up to the first fatal
    failure; the MFA check only for a worker without pagemod. *)
Definition expected_steps (wk : Worker) (passphrase : string) : list Event :=
  CsrfFetch ::
  match retrieveAndStoreCsrfToken remote with
  | Throw _ => []
  | Ok _ =>
      CryptoLogin passphrase ::
      match auth_login remote passphrase with
      | Throw _ => []
      | Ok _ =>
          match pageMod wk with
          | None =>
              IsLoggedIn ::
              match isLoggedIn remote with
              | Throw _ => []
              | Ok _ => [SettingsSync]
              end
          | Some _ => [SettingsSync]
          end
      end
  end.

(** How the settings sync shows in the trace: the call, and when it
    fails the two console lines and the defaults. *)
Definition sync_events : list Event :=
  match settings_sync remote with
  | Ok _ => [SettingsSync]
  | Throw e =>
      [SettingsSync; ConsoleError "User settings sync failed";
       ConsoleError (message e); SetDefaults]
  end.

(** The trace from the end of the before-login hook to the call of the
    success handler. *)
Definition events_before_success (wk : Worker) (passphrase : string)
    (remember : value) : list Event :=
  [CsrfFetch; CryptoLogin passphrase]
  ++ match pageMod wk with None => [IsLoggedIn] | Some _ => [] end
  ++ sync_events
  ++ (if truthy remember then [StoreMasterPassword passphrase remember] else []).

(** The page the success handler starts from. *)
Definition after_steps (wk : Worker) (passphrase : string) (remember : value)
    (pg : Page) : Page :=
  {| store := store pg; workers := workers pg;
     remembered := if truthy remember then Some (passphrase, remember)
                   else remembered pg;
     trace := trace pg ++ events_before_success wk passphrase remember;
     unhandled := unhandled pg |}.

(** The two ways an outcome is delivered. *)
Definition success_emit (c : AuthController) (p : Port) (url : string) : Event :=
  if is_AuthForm (worker c)
  then Emit p "passbolt.auth.login-success" [Str (l10n "You are now logged in!"); Str url]
  else Emit (port (worker c)) (requestId c) [Str "SUCCESS"].

Definition failure_emit (c : AuthController) (p : Port) (e : error) : Event :=
  if is_AuthForm (worker c)
  then Emit p "passbolt.auth.login-failed" [Str (message e)]
  else Emit (port (worker c)) (requestId c) [Str "ERROR"; getEmitableError e].

(** A login is completed when [login] returns and no promise it left
    behind was rejected. *)
Definition completed (pg : Page) (run : result unit * St) : Prop :=
  fst run = Ok tt ∧ unhandled (snd (snd run)) = unhandled pg.

(** The controller once the hook has recorded the tab of its worker. *)
Definition recorded (c : AuthController) : AuthController :=
  {| worker := worker c; requestId := requestId c;
     _tabId := Some (id (tab (worker c))) |}.

(** What the success handler emits after the application start, and what
    it throws, by the outcome of the start. *)
Definition success_outcome (init : result unit) (c : AuthController) (pg : Page)
    (redirect : value) : list Event * list error :=
  match init with
  | Throw e => ([], [e])
  | Ok _ =>
      if is_AuthForm (worker c) then
        let target := redirect_target (trustedDomain pg) redirect in
        match URL_href target, auth_port c pg with
        | None, _ => ([], [TypeError ("Invalid URL: " ++ target)])
        | Some url, None => ([], [mkError "Could not find worker Auth"])
        | Some url, Some p => ([success_emit c p url], [])
        end
      else ([success_emit c (port (worker c)) ""], [])
  end.

(** What a login must be given for its handlers to run through: the
    ['Auth'] worker of the tab for the login form, and, when no fatal step
    fails, an application that starts and for the login form a redirect
    URL that parses. *)
Definition deliverable (c : AuthController) (pg : Page) (passphrase : string)
    (redirect : value) : Prop :=
  (is_AuthForm (worker c) = true →
   is_Some (workers pg !! ("Auth", id (tab (worker c)))))
  ∧ (first_failure (worker c) passphrase = None →
     PassboltApp_init remote = Ok tt
     ∧ (is_AuthForm (worker c) = true →
        is_Some (URL_href (redirect_target (trustedDomain pg) redirect)))).

End WithCollaborators.

End LoginSpec.

(** ** Sample collaborators, to run the model on concrete inputs *)

Module Sample.

Definition is_hex_digit (c : ascii) : bool :=
  let n := nat_of_ascii c in
  ((48 <=? n) && (n <=? 57) || (65 <=? n) && (n <=? 70) || (97 <=? n) && (n <=? 102))%nat.

(** Three or six hex digits after an optional [#]. *)
Definition hexColor (v : value) : bool :=
  match v with
  | Str s =>
      let digits := match s with String "#" r => r | _ => s end in
      forallb is_hex_digit (String.list_ascii_of_string digits)
      && ((String.length digits =? 3) || (String.length digits =? 6))%nat
  | _ => false
  end.

(** Absolute [https] URLs only; an origin alone gets its root path. *)
Definition href (s : string) : option string :=
  if String.prefix "https://" s then
    if existsb (Ascii.eqb "/") (String.list_ascii_of_string (String.substring 8 (String.length s) s))
    then Some s else Some (s ++ "/")
  else None.

#[export] Instance vendors : Vendors := {|
  isHexColor := hexColor;
  l10n := fun s => s;
  URL_href := href;
  getEmitableError := fun e =>
    Obj (<["message" := Str (message e)]> (<["name" := Str (name e)]> ∅))
|}.

Definition token (code color textcolor : string) : value :=
  Obj (<["textcolor" := Str textcolor]> (<["color" := Str color]> (<["code" := Str code]> ∅))).

Definition empty_store : Store := {| config := ∅ |}.

Import Auth.

(** A store that trusts [https://example.org]. *)
Definition example_store : Store :=
  {| config := <["user.settings.trustedDomain" := Str "https://example.org"]> ∅ |}.

(** A page with the ['Auth'] worker of tab 7 and nothing remembered. *)
Definition page : Page :=
  {| store := example_store;
     workers := <[("Auth", 7) := PortId 1]> ∅;
     remembered := None;
     trace := [];
     unhandled := [] |}.

(** The login form of tab 7. *)
Definition authForm : Worker :=
  {| pageMod := Some {| args_name := "AuthForm" |}; tab := {| id := 7 |}; port := PortId 2 |}.

(** A requester without pagemod, as the quick access is. *)
Definition quickaccess : Worker :=
  {| pageMod := None; tab := {| id := 8 |}; port := PortId 3 |}.

(** A pagemod worker that is not the login form. *)
Definition otherPageMod : Worker :=
  {| pageMod := Some {| args_name := "App" |}; tab := {| id := 7 |}; port := PortId 4 |}.

Definition controller (wk : Worker) : AuthController :=
  {| worker := wk; requestId := "request-1"; _tabId := None |}.

Definition all_ok : Remote :=
  {| retrieveAndStoreCsrfToken := Ok tt; auth_login := fun _ => Ok tt;
     isLoggedIn := Ok tt; settings_sync := Ok tt; PassboltApp_init := Ok tt |}.

Definition csrf_fails : Remote :=
  {| retrieveAndStoreCsrfToken := Throw (mkError "Network error");
     auth_login := fun _ => Ok tt;
     isLoggedIn := Ok tt; settings_sync := Ok tt; PassboltApp_init := Ok tt |}.

Definition mfa_required : Remote :=
  {| retrieveAndStoreCsrfToken := Ok tt; auth_login := fun _ => Ok tt;
     isLoggedIn := Throw (mkError "MFA authentication is required.");
     settings_sync := Ok tt; PassboltApp_init := Ok tt |}.

Definition sync_fails : Remote :=
  {| retrieveAndStoreCsrfToken := Ok tt; auth_login := fun _ => Ok tt;
     isLoggedIn := Ok tt;
     settings_sync := Throw (mkError "Service unavailable");
     PassboltApp_init := Ok tt |}.

Import MasterPassword.

(** A dialog in whose page [masterPassword] is bound, and one where it is
    not. *)
Definition bound_dialog : Dialog :=
  {| masterPasswordField_val := "passphrase"; remember_checked := true;
     context_token := Str "token-1";
     global_masterPassword := Some (Str "passphrase"); effects := [] |}.

Definition unbound_dialog : Dialog :=
  {| masterPasswordField_val := "passphrase"; remember_checked := true;
     context_token := Str "token-1";
     global_masterPassword := None; effects := [] |}.

(** Absolute [https] URLs pass for URLs. *)
Definition isURL (v : value) : bool :=
  match v with
  | Str s => String.prefix "https://" s
  | _ => false
  end.

Definition debug_off : Store -> bool := fun _ => false.

(** A page where tab 7 has no ['Auth'] worker. *)
Definition page_without_auth : Page :=
  {| store := example_store; workers := ∅; remembered := None;
     trace := []; unhandled := [] |}.

Definition init_fails : Remote :=
  {| retrieveAndStoreCsrfToken := Ok tt; auth_login := fun _ => Ok tt;
     isLoggedIn := Ok tt; settings_sync := Ok tt;
     PassboltApp_init := Throw (mkError "Could not start the application") |}.

(** A dialog with the remember box unchecked. *)
Definition unchecked_dialog : Dialog :=
  {| masterPasswordField_val := "passphrase"; remember_checked := false;
     context_token := Str "token-1";
     global_masterPassword := None; effects := [] |}.

End Sample.

(** * Properties *)

(** Runs the monadic operations of a computation applied to a state. *)
Ltac run :=
  cbv [mbind M_bind mret M_ret lift throw modify gets try_catch
       Config.read Config.write with_config get_prop];
  cbn.

(** ** User settings *)

Section SettingsProperties.
Context `{Vendors}.
Import Settings.

(** One run of [setSecurityToken], by the rejection condition. *)
Lemma setSecurityToken_run (token : value) (w : Store) :
  if token_rejected token
  then ∃ e, setSecurityToken token w = (Throw e, w)
  else setSecurityToken token w = (Ok true, token_written token w).
Proof.
  unfold token_rejected, setSecurityToken, __validateToken, token_written.
  destruct token; run; eauto.
  generalize (default Undefined (fields !! "color")),
    (default Undefined (fields !! "code")),
    (default Undefined (fields !! "textcolor")).
  intros color code textcolor.
  destruct (typeof_undefined color); run; eauto.
  destruct (typeof_undefined code); run; eauto.
  destruct (typeof_undefined textcolor); run; eauto.
  destruct (isHexColor color); run; eauto.
  destruct (isHexColor textcolor); run; eauto.
Qed.

(** A token that is not rejected has its three fields. *)
Lemma accepted_fields (token : value) :
  token_rejected token = false →
  typeof_undefined (field token "code") = false
  ∧ typeof_undefined (field token "color") = false
  ∧ typeof_undefined (field token "textcolor") = false.
Proof.
  unfold token_rejected. intros Hacc.
  repeat (apply orb_false_elim in Hacc as [Hacc ?]). auto.
Qed.

(** Reading the token back from a store where it was just written. *)
Lemma getSecurityToken_written (token : value) (w : Store) :
  token_rejected token = false →
  getSecurityToken (token_written token w)
  = (Ok (Obj (<["textcolor" := field token "textcolor"]>
               (<["color" := field token "color"]>
                 (<["code" := field token "code"]> ∅)))),
     token_written token w).
Proof.
  intros Hacc. destruct (accepted_fields token Hacc) as (Hcode & Hcolor & Htext).
  unfold getSecurityToken, token_written. run.
  rewrite lookup_insert_ne, lookup_insert_ne, lookup_insert_eq by done.
  rewrite lookup_insert_ne, lookup_insert_eq by done.
  rewrite lookup_insert_eq. cbn.
  by rewrite Hcode, Hcolor, Htext.
Qed.

(** C9. [setSecurityToken] throws and leaves the config store as it was
    when the token is undefined, lacks one of [color], [code] and
    [textcolor], or has a [color] or [textcolor] that is not a hex colour;
    otherwise it writes the three fields and returns [true]. *)
Theorem setSecurityToken_validates (token : value) (w : Store) :
  (token_rejected token = true → ∃ e, setSecurityToken token w = (Throw e, w))
  ∧ (token_rejected token = false →
     setSecurityToken token w = (Ok true, token_written token w)).
Proof.
  pose proof (setSecurityToken_run token w) as Hrun.
  destruct (token_rejected token); split; intros; done.
Qed.

(** C10. After [setSecurityToken] has accepted a token, [getSecurityToken]
    on the resulting store does not throw and returns a token with the
    same [code], [color] and [textcolor]. *)
Theorem getSecurityToken_after_set (token : value) (w w' : Store) (r : bool) :
  setSecurityToken token w = (Ok r, w') →
  ∃ t, getSecurityToken w' = (Ok t, w')
       ∧ field t "code" = field token "code"
       ∧ field t "color" = field token "color"
       ∧ field t "textcolor" = field token "textcolor".
Proof.
  intros Hset. pose proof (setSecurityToken_run token w) as Hrun.
  destruct (token_rejected token) eqn:Hrej.
  - destruct Hrun as [e He]. congruence.
  - rewrite Hrun in Hset. injection Hset as _ <-.
    eexists. split; [by apply getSecurityToken_written |].
    cbn. by simplify_map_eq.
Qed.

End SettingsProperties.

(** ** The trusted domain and the sanity check of the settings *)

Section DomainProperties.
Context `{Vendors} (isDebug : Store → bool) (isURL : value → bool).
Import Settings.

Lemma is_set_read (key : string) (w : Store) :
  typeof_undefined (default Undefined (config w !! key)) = negb (is_set key w).
Proof. unfold is_set. by rewrite negb_involutive. Qed.

(** One run of each getter, by what the store holds. *)
Lemma getSecurityToken_run (w : Store) :
  ∃ r, getSecurityToken w = (r, w)
       ∧ (token_set w = true → ∃ t, r = Ok t)
       ∧ (token_set w = false → ∃ e, r = Throw e).
Proof.
  unfold getSecurityToken, token_set. run. rewrite !is_set_read.
  destruct (is_set "securityToken.code" w), (is_set "securityToken.color" w),
    (is_set "securityToken.textColor" w); cbn; eexists; (split; [done|]);
    split; intros; try done; eauto.
Qed.

Lemma getDomain_run (w : Store) :
  getDomain isDebug w
  = (if is_set "trustedDomain" w
     then Ok (default Undefined (config w !! "trustedDomain"))
     else if negb (isDebug w) then Throw (mkError (l10n "Trusted domain is not set"))
     else if is_set "baseUrl" w
     then Ok (default Undefined (config w !! "baseUrl"))
     else Throw (mkError (l10n "Base url not found in config")),
     w).
Proof.
  unfold getDomain, is_set. run.
  destruct (typeof_undefined (default Undefined (config w !! "trustedDomain")));
    cbn; [|done].
  destruct (isDebug w); cbn; [|done].
  by destruct (typeof_undefined (default Undefined (config w !! "baseUrl"))).
Qed.

Lemma setDomain_run (domain : value) (w : Store) :
  if typeof_undefined domain || negb (isURL domain)
  then ∃ e, setDomain isURL domain w = (Throw e, w)
  else setDomain isURL domain w
       = (Ok tt, with_config (insert "trustedDomain" domain) w).
Proof.
  unfold setDomain, __validateDomain. run.
  destruct (typeof_undefined domain); cbn; [eauto|].
  destruct (isURL domain); cbn; eauto.
Qed.

(** X1. [setDomain] throws and leaves the store as it was when the domain
    is undefined or is not a URL; otherwise it writes the domain under
    [trustedDomain] and nothing else. *)
Theorem setDomain_validates (domain : value) (w : Store) :
  (typeof_undefined domain || negb (isURL domain) = true →
   ∃ e, setDomain isURL domain w = (Throw e, w))
  ∧ (typeof_undefined domain || negb (isURL domain) = false →
     setDomain isURL domain w
     = (Ok tt, with_config (insert "trustedDomain" domain) w)).
Proof.
  pose proof (setDomain_run domain w) as Hrun.
  destruct (typeof_undefined domain || negb (isURL domain)); split; intros; done.
Qed.

(** X2. After [setDomain] has accepted a domain, [getDomain] returns that
    domain, in debug mode or not. *)
Theorem getDomain_after_set (domain : value) (w w' : Store) (r : unit) :
  setDomain isURL domain w = (Ok r, w') →
  getDomain isDebug w' = (Ok domain, w').
Proof.
  intros Hset. pose proof (setDomain_run domain w) as Hrun.
  destruct (typeof_undefined domain) eqn:Hundef; cbn in Hrun.
  { destruct Hrun as [e He]. congruence. }
  destruct (isURL domain); cbn in Hrun; [|destruct Hrun as [e He]; congruence].
  rewrite Hrun in Hset. injection Hset as _ <-.
  rewrite getDomain_run. unfold is_set, with_config. cbn [config].
  rewrite lookup_insert_eq. cbn. by rewrite Hundef.
Qed.

(** X3. What [getDomain] returns is never [undefined], and it leaves the
    store as it was. *)
Theorem getDomain_defined (w w' : Store) (domain : value) :
  getDomain isDebug w = (Ok domain, w') →
  typeof_undefined domain = false ∧ w' = w.
Proof.
  rewrite getDomain_run. unfold is_set.
  destruct (typeof_undefined (default Undefined (config w !! "trustedDomain")))
    eqn:Htrusted; cbn.
  - destruct (isDebug w); cbn; [|done].
    destruct (typeof_undefined (default Undefined (config w !! "baseUrl")))
      eqn:Hbase; cbn; [done|].
    by intros [= <- <-].
  - by intros [= <- <-].
Qed.

(** X4. [getDomain] returns a domain exactly when the trusted domain is
    set, or the debug switch is on and the base url is set; outside debug
    mode the base url is never used. *)
Theorem getDomain_succeeds_iff (w : Store) :
  (∃ domain, getDomain isDebug w = (Ok domain, w)) ↔ domain_available isDebug w = true.
Proof.
  rewrite getDomain_run. unfold domain_available.
  destruct (is_set "trustedDomain" w); cbn; [split; eauto|].
  destruct (isDebug w); cbn; [|split; [intros [? [=]] | done]].
  destruct (is_set "baseUrl" w); cbn; [split; eauto|].
  split; [intros [? [=]] | done].
Qed.

(** One run of [isValid]. *)
Lemma isValid_run (w : Store) :
  isValid isDebug w = (Ok (token_set w && domain_available isDebug w), w).
Proof.
  unfold isValid. cbv [try_catch mbind M_bind mret M_ret].
  destruct (getSecurityToken_run w) as (r & -> & Hset & Hunset).
  destruct (token_set w).
  - destruct Hset as [t ->]; [done|]. rewrite getDomain_run.
    unfold domain_available.
    destruct (is_set "trustedDomain" w); cbn; [done|].
    destruct (isDebug w); cbn; [|done].
    by destruct (is_set "baseUrl" w).
  - by destruct Hunset as [e ->].
Qed.

(** X5. [isValid] never throws and never writes; it answers [true]
    exactly when the three keys of the security token are set and a
    domain can be read. *)
Theorem isValid_decides (w : Store) :
  ∃ answer, isValid isDebug w = (Ok answer, w)
    ∧ (answer = true ↔ token_set w = true ∧ domain_available isDebug w = true).
Proof.
  eexists. split; [apply isValid_run|]. apply andb_true_iff.
Qed.

Lemma setSecurityToken_accepted (token : value) (w w' : Store) (r : bool) :
  setSecurityToken token w = (Ok r, w') →
  token_rejected token = false ∧ w' = token_written token w.
Proof.
  intros Hset. pose proof (setSecurityToken_run token w) as Hrun.
  destruct (token_rejected token).
  - destruct Hrun as [e He]. congruence.
  - split; [done|]. congruence.
Qed.

Lemma setDomain_accepted (domain : value) (w w' : Store) (r : unit) :
  setDomain isURL domain w = (Ok r, w') →
  typeof_undefined domain = false
  ∧ w' = with_config (insert "trustedDomain" domain) w.
Proof.
  intros Hset. pose proof (setDomain_run domain w) as Hrun.
  destruct (typeof_undefined domain); cbn in Hrun.
  { destruct Hrun as [e He]. congruence. }
  destruct (isURL domain); cbn in Hrun; [|destruct Hrun as [e He]; congruence].
  split; [done|]. congruence.
Qed.

(** Reading a key of a store after writes to explicit keys. *)
Ltac read_written :=
  unfold is_set, token_written, with_config; cbn [config];
  rewrite ?lookup_insert; repeat case_decide; try done.

(** X6. Once a security token and a domain have both been accepted, in
    either order, [isValid] answers [true]. *)
Theorem isValid_after_setup (token domain : value) (w : Store) :
  (∀ w1 w2 r1 r2,
      setSecurityToken token w = (Ok r1, w1) →
      setDomain isURL domain w1 = (Ok r2, w2) →
      isValid isDebug w2 = (Ok true, w2))
  ∧ (∀ w1 w2 r1 r2,
      setDomain isURL domain w = (Ok r1, w1) →
      setSecurityToken token w1 = (Ok r2, w2) →
      isValid isDebug w2 = (Ok true, w2)).
Proof.
  split; intros w1 w2 r1 r2 Hfirst Hsecond; rewrite isValid_run.
  - apply setSecurityToken_accepted in Hfirst as [Htoken ->].
    apply setDomain_accepted in Hsecond as [Hdomain ->].
    destruct (accepted_fields token Htoken) as (Hcode & Hcolor & Htext).
    unfold token_set, domain_available.
    replace (is_set "securityToken.code" _) with true
      by (read_written; cbn; by rewrite Hcode).
    replace (is_set "securityToken.color" _) with true
      by (read_written; cbn; by rewrite Hcolor).
    replace (is_set "securityToken.textColor" _) with true
      by (read_written; cbn; by rewrite Htext).
    replace (is_set "trustedDomain" _) with true
      by (read_written; cbn; by rewrite Hdomain).
    done.
  - apply setDomain_accepted in Hfirst as [Hdomain ->].
    apply setSecurityToken_accepted in Hsecond as [Htoken ->].
    destruct (accepted_fields token Htoken) as (Hcode & Hcolor & Htext).
    unfold token_set, domain_available.
    replace (is_set "securityToken.code" _) with true
      by (read_written; cbn; by rewrite Hcode).
    replace (is_set "securityToken.color" _) with true
      by (read_written; cbn; by rewrite Hcolor).
    replace (is_set "securityToken.textColor" _) with true
      by (read_written; cbn; by rewrite Htext).
    replace (is_set "trustedDomain" _) with true
      by (read_written; cbn; by rewrite Hdomain).
    done.
Qed.

(** X7. The security token and the domain are stored apart: an accepted
    [setDomain] does not change what [getSecurityToken] answers, and an
    accepted [setSecurityToken] does not change what [getDomain] answers
    (the debug switch staying as it was). *)
Theorem token_and_domain_apart (w w' : Store) :
  (∀ domain r,
      setDomain isURL domain w = (Ok r, w') →
      fst (getSecurityToken w') = fst (getSecurityToken w))
  ∧ (∀ token r,
      setSecurityToken token w = (Ok r, w') →
      isDebug w' = isDebug w →
      fst (getDomain isDebug w') = fst (getDomain isDebug w)).
Proof.
  split.
  - intros domain r Hset. apply setDomain_accepted in Hset as [_ ->].
    unfold getSecurityToken. run.
    rewrite !lookup_insert_ne by done.
    by destruct (typeof_undefined _ || typeof_undefined _ || typeof_undefined _).
  - intros token r Hset Hdebug. apply setSecurityToken_accepted in Hset as [_ ->].
    rewrite !getDomain_run, Hdebug. cbn [fst].
    replace (is_set "trustedDomain" (token_written token w))
      with (is_set "trustedDomain" w) by read_written.
    replace (is_set "baseUrl" (token_written token w))
      with (is_set "baseUrl" w) by read_written.
    unfold token_written, with_config. cbn [config].
    by rewrite !lookup_insert_ne by done.
Qed.

(** X8. Writing back the token that [getSecurityToken] returned, when it
    passes the validation, leaves the store exactly as it was. *)
Theorem setSecurityToken_of_stored (w w' : Store) (t : value) :
  getSecurityToken w = (Ok t, w') →
  token_rejected t = false →
  setSecurityToken t w = (Ok true, w).
Proof.
  intros Hget Hvalid.
  pose proof (setSecurityToken_run t w) as Hrun. rewrite Hvalid in Hrun.
  rewrite Hrun. f_equal.
  revert Hget. unfold getSecurityToken. run.
  destruct (config w !! "securityToken.code") as [code|] eqn:Hcode; cbn; [|done].
  destruct (config w !! "securityToken.color") as [color|] eqn:Hcolor; cbn;
    [|by rewrite orb_true_r].
  destruct (config w !! "securityToken.textColor") as [textcolor|] eqn:Htext; cbn;
    [|by rewrite !orb_true_r].
  destruct (typeof_undefined code || typeof_undefined color
            || typeof_undefined textcolor); cbn; [done|].
  intros [= <- _]. unfold token_written, with_config, field.
  set (fields := <["textcolor":=textcolor]> (<["color":=color]> (<["code":=code]> ∅))).
  assert (fields !! "code" = Some code) as -> by reflexivity.
  assert (fields !! "color" = Some color) as -> by reflexivity.
  assert (fields !! "textcolor" = Some textcolor) as -> by reflexivity.
  destruct w as [m]. cbn in *. f_equal.
  rewrite (insert_id m) by done.
  rewrite (insert_id m) by done.
  by rewrite (insert_id m).
Qed.

End DomainProperties.
(** ** The authentication controller *)

Section AuthProperties.
Context `{Vendors} (remote : Auth.Remote).
Import Auth LoginSpec.

Ltac arun :=
  cbv [login _beforeLogin _checkMfaAuthentication _syncUserSettings
       _handleLoginSuccess _handleLoginError storeMasterPasswordTemporarily
       new_URL_href emit Worker_get_port Config_read detach await_call
       set_tabId this log
       mbind M_bind mret M_ret lift throw modify gets try_catch
       Config.read];
  cbn.

Ltac norm_trace := rewrite <- ?app_assoc; cbn [app].

Lemma events_since_logged pg evs pg' :
  trace pg' = (trace pg ++ evs)%list → events_since pg pg' = evs.
Proof. unfold events_since. intros ->. apply drop_app_length. Qed.

Lemma logged_nil pg : logged [] pg = pg.
Proof. destruct pg. unfold logged. cbn. by rewrite app_nil_r. Qed.

(** *** The before-login hook *)

Lemma beforeLogin_ok c pg c0 pg0 :
  _beforeLogin (c, pg) = (Ok tt, (c0, pg0)) →
  worker c0 = worker c ∧ requestId c0 = requestId c
  ∧ store pg0 = store pg ∧ workers pg0 = workers pg
  ∧ remembered pg0 = remembered pg ∧ unhandled pg0 = unhandled pg
  ∧ if is_AuthForm (worker c)
    then ∃ p, auth_port c0 pg0 = Some p
              ∧ _tabId c0 = Some (id (tab (worker c)))
              ∧ trace pg0 = (trace pg ++
                  [Emit p "passbolt.auth.login-processing" [Str (l10n "Logging in")]])%list
    else _tabId c0 = _tabId c ∧ trace pg0 = trace pg.
Proof.
  unfold auth_port. arun. destruct (is_AuthForm (worker c)); cbn.
  - destruct (workers pg !! ("Auth", id (tab (worker c)))) as [p|] eqn:Hp; cbn;
      intros [= <- <-]; cbn. eauto 10.
  - intros [= <- <-]. auto 10.
Qed.

Lemma beforeLogin_failed c pg e c0 pg0 :
  _beforeLogin (c, pg) = (Throw e, (c0, pg0)) →
  is_AuthForm (worker c) = true ∧ worker c0 = worker c ∧ pg0 = pg
  ∧ auth_port c0 pg0 = None.
Proof.
  unfold auth_port. arun. destruct (is_AuthForm (worker c)); cbn; [|done].
  destruct (workers pg !! ("Auth", id (tab (worker c)))) as [p|] eqn:Hp; cbn;
    intros [= <- <- <-]; cbn. auto.
Qed.

Lemma login_after_hook passphrase remember redirect s s0 :
  _beforeLogin s = (Ok tt, s0) →
  login remote passphrase remember redirect s
  = try_catch
      (await_call CsrfFetch (retrieveAndStoreCsrfToken remote);;
       await_call (CryptoLogin passphrase) (auth_login remote passphrase);;
       _checkMfaAuthentication remote;;
       _syncUserSettings remote;;
       (if truthy remember
        then storeMasterPasswordTemporarily passphrase remember
        else mret tt);;
       detach (_handleLoginSuccess remote redirect))
      (fun error => _handleLoginError error) s0.
Proof.
  intros Hhook. unfold login, try_catch, mbind, M_bind at 1. by rewrite Hhook.
Qed.

Lemma login_hook_failed passphrase remember redirect s e s0 :
  _beforeLogin s = (Throw e, s0) →
  login remote passphrase remember redirect s = _handleLoginError e s0.
Proof.
  intros Hhook. unfold login, try_catch, mbind, M_bind at 1. by rewrite Hhook.
Qed.

(** *** The handlers *)

Lemma handleLoginError_run e c pg :
  _handleLoginError e (c, pg)
  = if is_AuthForm (worker c) then
      match auth_port c pg with
      | Some p => (Ok tt, (c, logged [failure_emit c p e] pg))
      | None => (Throw (mkError "Could not find worker Auth"), (c, pg))
      end
    else (Ok tt, (c, logged [failure_emit c (port (worker c)) e] pg)).
Proof.
  unfold auth_port, failure_emit, logged. arun.
  destruct (is_AuthForm (worker c)); cbn; [|done].
  destruct (_tabId c) as [t|]; cbn; [|done].
  by destruct (workers pg !! ("Auth", t)).
Qed.

Lemma redirect_unusable_spec redirect :
  redirect_unusable redirect
  = typeof_undefined redirect || negb (is_string redirect)
    || negb (starts_with_slash redirect).
Proof.
  unfold redirect_unusable.
  destruct redirect as [| |b|n|[|a s]|[|a s]|fields]; cbn;
    by rewrite ?orb_true_r, ?orb_false_r.
Qed.

Lemma handleLoginSuccess_run redirect c pg :
  detach (_handleLoginSuccess remote redirect) (c, pg)
  = match PassboltApp_init remote with
    | Throw e => (Ok tt, (c, rejected e (logged [PassboltAppInit] pg)))
    | Ok _ =>
        if is_AuthForm (worker c) then
          let target := redirect_target (trustedDomain pg) redirect in
          match URL_href target, auth_port c pg with
          | None, _ =>
              (Ok tt, (c, rejected (TypeError ("Invalid URL: " ++ target))
                            (logged [PassboltAppInit] pg)))
          | Some url, None =>
              (Ok tt, (c, rejected (mkError "Could not find worker Auth")
                            (logged [PassboltAppInit] pg)))
          | Some url, Some p =>
              (Ok tt, (c, logged [PassboltAppInit; success_emit c p url] pg))
          end
        else
          (Ok tt, (c, logged [PassboltAppInit; success_emit c (port (worker c)) ""] pg))
    end.
Proof.
  unfold auth_port, success_emit, redirect_target, trustedDomain, logged, rejected.
  rewrite <- redirect_unusable_spec. arun.
  destruct (PassboltApp_init remote) as [[]|e]; cbn; [|done].
  destruct (is_AuthForm (worker c)); cbn; [|by norm_trace].
  destruct (redirect_unusable redirect); cbn.
  all: match goal with |- context [URL_href ?u] => destruct (URL_href u) end;
    cbn; [|done].
  all: destruct (_tabId c) as [t|]; cbn; [|done].
  all: destruct (workers pg !! ("Auth", t)); cbn; by norm_trace.
Qed.

(** A detached call throws nothing, so a [catch] around it never runs. *)
Lemma detach_caught (m : M St unit) (h : error → M St unit) (s : St) :
  (let (r, s') := detach m s in
   match r with
   | Ok a => (Ok a, s')
   | Throw e => h e s'
   end) = detach m s.
Proof. unfold detach. by destruct (m s) as [[[]|e] [c pg]]. Qed.

(** *** One run of [login] *)

(** Once the before-login hook has returned: either the failure handler
    after the steps up to the first failure, or the success handler after
    all of them. *)
Lemma login_run c pg passphrase remember redirect c0 pg0 :
  _beforeLogin (c, pg) = (Ok tt, (c0, pg0)) →
  login remote passphrase remember redirect (c, pg)
  = match first_failure remote (worker c) passphrase with
    | Some e =>
        _handleLoginError e (c0, logged (expected_steps remote (worker c) passphrase) pg0)
    | None =>
        detach (_handleLoginSuccess remote redirect)
          (c0, after_steps remote (worker c) passphrase remember pg0)
    end.
Proof.
  intros Hhook. rewrite (login_after_hook _ _ _ _ _ Hhook).
  apply beforeLogin_ok in Hhook as (Hw & _). rewrite <- Hw. clear Hw.
  unfold first_failure, expected_steps, after_steps, events_before_success,
    sync_events, logged.
  cbv [_checkMfaAuthentication _syncUserSettings storeMasterPasswordTemporarily
       await_call this log mbind M_bind mret M_ret lift throw modify gets try_catch].
  cbn.
  destruct (retrieveAndStoreCsrfToken remote) as [[]|?]; cbn; [|done].
  destruct (auth_login remote passphrase) as [[]|?]; cbn; [|by norm_trace].
  destruct (pageMod (worker c0)); cbn.
  - destruct (settings_sync remote) as [[]|?]; destruct (truthy remember); cbn;
      rewrite detach_caught; by norm_trace.
  - destruct (isLoggedIn remote) as [[]|?]; cbn; [|by norm_trace].
    destruct (settings_sync remote) as [[]|?]; destruct (truthy remember); cbn;
      rewrite detach_caught; by norm_trace.
Qed.

(** *** What the parts of a run add to the trace *)

Lemma steps_app (l1 l2 : list Event) : steps (l1 ++ l2) = (steps l1 ++ steps l2)%list.
Proof. apply List.filter_app. Qed.

Lemma steps_expected wk passphrase :
  steps (expected_steps remote wk passphrase) = expected_steps remote wk passphrase.
Proof.
  unfold expected_steps.
  destruct (retrieveAndStoreCsrfToken remote), (auth_login remote passphrase),
    (pageMod wk), (isLoggedIn remote); reflexivity.
Qed.

Lemma steps_before_success wk passphrase remember :
  first_failure remote wk passphrase = None →
  steps (events_before_success remote wk passphrase remember)
  = expected_steps remote wk passphrase.
Proof.
  unfold first_failure, expected_steps, events_before_success, sync_events.
  destruct (retrieveAndStoreCsrfToken remote), (auth_login remote passphrase),
    (pageMod wk), (isLoggedIn remote), (settings_sync remote), (truthy remember);
    done.
Qed.

Lemma steps_failure_emit c p e : steps [failure_emit c p e] = [].
Proof. unfold failure_emit. by destruct (is_AuthForm (worker c)). Qed.

Lemma steps_success_emit c p url : steps [success_emit c p url] = [].
Proof. unfold success_emit. by destruct (is_AuthForm (worker c)). Qed.

(** The hook adds at most the processing signal. *)
Lemma beforeLogin_trace c pg c0 pg0 :
  _beforeLogin (c, pg) = (Ok tt, (c0, pg0)) →
  ∃ hook, trace pg0 = (trace pg ++ hook)%list ∧ steps hook = []
          ∧ emits hook = hook ∧ length hook = (if is_AuthForm (worker c) then 1 else 0)%nat.
Proof.
  intros Hhook. apply beforeLogin_ok in Hhook as (_ & _ & _ & _ & _ & _ & Hcase).
  destruct (is_AuthForm (worker c)).
  - destruct Hcase as (p & _ & _ & ->). by eexists.
  - destruct Hcase as [_ ->]. exists []. by rewrite app_nil_r.
Qed.

(** The failure handler adds at most its report and keeps the rest. *)
Lemma handleLoginError_page e c pg :
  ∃ r report,
    _handleLoginError e (c, pg) = (r, (c, logged report pg))
    ∧ (report = [] ∨ ∃ p, report = [failure_emit c p e]).
Proof.
  rewrite handleLoginError_run.
  destruct (is_AuthForm (worker c)); [destruct (auth_port c pg) as [p|] |].
  - exists (Ok tt), [failure_emit c p e]. eauto.
  - exists (Throw (mkError "Could not find worker Auth")), []. by rewrite logged_nil; auto.
  - exists (Ok tt), [failure_emit c (port (worker c)) e]. eauto.
Qed.

(** The success handler adds the application start and at most its
    report, and keeps the remembered passphrase. *)
Lemma handleLoginSuccess_page redirect c pg :
  ∃ pg' report,
    detach (_handleLoginSuccess remote redirect) (c, pg) = (Ok tt, (c, pg'))
    ∧ trace pg' = (trace pg ++ PassboltAppInit :: report)%list
    ∧ remembered pg' = remembered pg
    ∧ (report = [] ∨ ∃ p url, report = [success_emit c p url]).
Proof.
  rewrite handleLoginSuccess_run.
  destruct (PassboltApp_init remote) as [[]|e]; [|by eexists _, []; auto].
  destruct (is_AuthForm (worker c)); cbn zeta.
  - destruct (URL_href _) as [url|]; [|by eexists _, []; auto].
    destruct (auth_port c pg) as [p|]; [|by eexists _, []; auto].
    eexists _, [_]. eauto 10.
  - eexists _, [_]. eauto 10.
Qed.

(** The trace and the remembered passphrase at the end of a run whose
    before-login hook returned. *)
Lemma login_page c pg passphrase remember redirect c0 pg0 :
  _beforeLogin (c, pg) = (Ok tt, (c0, pg0)) →
  let final := snd (snd (login remote passphrase remember redirect (c, pg))) in
  ∃ hook tail,
    steps hook = [] ∧ steps tail = []
    ∧ match first_failure remote (worker c) passphrase with
      | Some e =>
          events_since pg final
          = (hook ++ expected_steps remote (worker c) passphrase ++ tail)%list
          ∧ remembered final = remembered pg
      | None =>
          events_since pg final
          = (hook ++ events_before_success remote (worker c) passphrase remember
                  ++ tail)%list
          ∧ remembered final
            = if truthy remember then Some (passphrase, remember) else remembered pg
      end.
Proof.
  intros Hhook. cbn zeta. rewrite (login_run _ _ _ _ _ _ _ Hhook).
  destruct (beforeLogin_trace _ _ _ _ Hhook) as (hook & Htrace & Hhook_steps & _).
  apply beforeLogin_ok in Hhook as (_ & _ & _ & _ & Hrem & _).
  exists hook. destruct (first_failure remote (worker c) passphrase) as [e|].
  - destruct (handleLoginError_page e c0
      (logged (expected_steps remote (worker c) passphrase) pg0))
      as (r & report & -> & Hreport).
    exists report. cbn. split; [done|]. split.
    { destruct Hreport as [->|[p ->]]; [done | apply steps_failure_emit]. }
    split; [|done].
    apply events_since_logged. unfold logged. cbn. rewrite Htrace.
    by rewrite <- !app_assoc.
  - destruct (handleLoginSuccess_page redirect c0
      (after_steps remote (worker c) passphrase remember pg0))
      as (pg' & report & -> & Htrace' & Hrem' & Hreport).
    exists (PassboltAppInit :: report). cbn [snd]. split; [done|]. split.
    { destruct Hreport as [->|(p & url & ->)]; [done|].
      change (steps ([PassboltAppInit] ++ [success_emit c0 p url]) = []).
      by rewrite steps_app, steps_success_emit. }
    split.
    + apply events_since_logged. rewrite Htrace'. unfold after_steps.
      cbn [trace]. rewrite Htrace. by rewrite <- !app_assoc.
    + rewrite Hrem'. unfold after_steps. cbn [remembered]. by rewrite Hrem.
Qed.

(** Membership in an explicit list of events. *)
Ltac in_list := rewrite ?list_elem_of_In; cbn; intuition congruence.

Lemma elem_of_steps (ev : Event) (t : list Event) :
  ev ∈ steps t ↔ ev ∈ t ∧ is_step ev = true.
Proof. unfold steps. rewrite !list_elem_of_In. apply List.filter_In. Qed.

(** The steps of a whole run. *)
Lemma login_steps c pg passphrase remember redirect :
  steps (events_since pg (snd (snd (login remote passphrase remember redirect (c, pg)))))
  = match _beforeLogin (c, pg) with
    | (Ok _, _) => expected_steps remote (worker c) passphrase
    | (Throw _, _) => []
    end.
Proof.
  destruct (_beforeLogin (c, pg)) as [[[]|e] [c0 pg0]] eqn:Hhook.
  - destruct (login_page _ _ passphrase remember redirect _ _ Hhook)
      as (hook & tail & Hhook_steps & Htail_steps & Hcase).
    destruct (first_failure remote (worker c) passphrase) eqn:Hfail;
      destruct Hcase as [-> _]; rewrite !steps_app, Hhook_steps, Htail_steps, app_nil_r.
    + apply steps_expected.
    + by apply steps_before_success.
  - rewrite (login_hook_failed _ _ _ _ _ _ Hhook).
    apply beforeLogin_failed in Hhook as (_ & _ & -> & _).
    destruct (handleLoginError_page e c0 pg) as (r & report & -> & Hreport). cbn.
    erewrite events_since_logged by reflexivity.
    destruct Hreport as [->|[p ->]]; [done | apply steps_failure_emit].
Qed.

Lemma no_failure (wk : Worker) (passphrase : string) :
  retrieveAndStoreCsrfToken remote = Ok tt →
  auth_login remote passphrase = Ok tt →
  (pageMod wk = None → isLoggedIn remote = Ok tt) →
  first_failure remote wk passphrase = None.
Proof.
  unfold first_failure. intros -> -> Hmfa.
  destruct (pageMod wk); [done|]. by rewrite Hmfa.
Qed.

(** *** The claims about the steps *)

(** C1. The steps of [login] run in the order CSRF fetch, crypto login
    with the passphrase, MFA check (for a worker without pagemod),
    settings sync; when the CSRF fetch, the crypto login or the MFA check
    throws, the run is the failure handler on that error, entered with no
    later step made. When the before-login hook itself throws, no step is
    made at all. *)
Theorem login_steps_in_order c pg passphrase remember redirect :
  let run := login remote passphrase remember redirect (c, pg) in
  match _beforeLogin (c, pg) with
  | (Ok _, (c0, pg0)) =>
      steps (events_since pg (snd (snd run)))
      = expected_steps remote (worker c) passphrase
      ∧ ∀ e, first_failure remote (worker c) passphrase = Some e →
          run = _handleLoginError e
                  (c0, logged (expected_steps remote (worker c) passphrase) pg0)
  | (Throw e, s0) =>
      steps (events_since pg (snd (snd run))) = [] ∧ run = _handleLoginError e s0
  end.
Proof.
  cbn zeta. rewrite login_steps.
  destruct (_beforeLogin (c, pg)) as [[[]|e] [c0 pg0]] eqn:Hhook.
  - split; [done|]. intros e Hfail.
    by rewrite (login_run _ _ _ _ _ _ _ Hhook), Hfail.
  - split; [done|]. by apply login_hook_failed.
Qed.

(** C2. When the CSRF fetch, the crypto login and the MFA check (where it
    is made) succeed and the settings sync throws, the defaults are
    applied, [login] returns without error, and the run ends in the
    success handler: what is emitted after the hook is at most the
    success report. *)
Theorem sync_failure_is_absorbed c pg passphrase remember redirect c0 pg0 e :
  _beforeLogin (c, pg) = (Ok tt, (c0, pg0)) →
  retrieveAndStoreCsrfToken remote = Ok tt →
  auth_login remote passphrase = Ok tt →
  (pageMod (worker c) = None → isLoggedIn remote = Ok tt) →
  settings_sync remote = Throw e →
  let run := login remote passphrase remember redirect (c, pg) in
  run = detach (_handleLoginSuccess remote redirect)
          (c0, after_steps remote (worker c) passphrase remember pg0)
  ∧ fst run = Ok tt
  ∧ sync_events remote
    = [SettingsSync; ConsoleError "User settings sync failed";
       ConsoleError (message e); SetDefaults]
  ∧ SetDefaults ∈ events_since pg0 (snd (snd run))
  ∧ (emits (events_since pg0 (snd (snd run))) = []
     ∨ ∃ p url, emits (events_since pg0 (snd (snd run))) = [success_emit c0 p url]).
Proof.
  intros Hhook Hcsrf Hlogin Hmfa Hsync. cbn zeta.
  rewrite (login_run _ _ _ _ _ _ _ Hhook), (no_failure _ _ Hcsrf Hlogin Hmfa).
  assert (sync_events remote
    = [SettingsSync; ConsoleError "User settings sync failed";
       ConsoleError (message e); SetDefaults]) as Hevents
    by (unfold sync_events; by rewrite Hsync).
  destruct (handleLoginSuccess_page redirect c0
    (after_steps remote (worker c) passphrase remember pg0))
    as (pg' & report & Hrun & Htrace & _ & Hreport).
  rewrite Hrun. cbn [fst snd]. split; [done|]. split; [done|]. split; [done|].
  split.
  - erewrite events_since_logged by (rewrite Htrace; unfold after_steps; cbn [trace];
      by rewrite <- app_assoc).
    unfold events_before_success. rewrite Hevents.
    destruct (pageMod (worker c)); in_list.
  - erewrite events_since_logged by (rewrite Htrace; unfold after_steps; cbn [trace];
      by rewrite <- app_assoc).
    unfold events_before_success, emits. rewrite Hevents.
    assert (∀ p url, is_emit (success_emit c0 p url) = true) as Hemit
      by (intros; unfold success_emit; by destruct (is_AuthForm (worker c0))).
    destruct (pageMod (worker c)), (truthy remember);
      destruct Hreport as [->|(q & url & ->)]; cbn; rewrite ?Hemit; eauto.
Qed.

(** C3, as amended. When remembering is requested and the CSRF fetch, the
    crypto login and the MFA check (where it is made) succeed, the
    passphrase is put in the remembered-passphrase cache with the
    [remember] argument as duration, whether the settings sync succeeds or
    not. *)
Theorem remembered_after_fatal_steps c pg passphrase remember redirect c0 pg0 :
  _beforeLogin (c, pg) = (Ok tt, (c0, pg0)) →
  truthy remember = true →
  retrieveAndStoreCsrfToken remote = Ok tt →
  auth_login remote passphrase = Ok tt →
  (pageMod (worker c) = None → isLoggedIn remote = Ok tt) →
  let final := snd (snd (login remote passphrase remember redirect (c, pg))) in
  remembered final = Some (passphrase, remember)
  ∧ StoreMasterPassword passphrase remember ∈ events_since pg final.
Proof.
  intros Hhook Hremember Hcsrf Hlogin Hmfa.
  destruct (login_page _ _ passphrase remember redirect _ _ Hhook)
    as (hook & tail & _ & _ & Hcase).
  rewrite (no_failure _ _ Hcsrf Hlogin Hmfa), Hremember in Hcase.
  destruct Hcase as [Hevents Hremembered]. cbn zeta. split; [done|].
  rewrite Hevents. unfold events_before_success. rewrite Hremember.
  rewrite !elem_of_app. in_list.
Qed.

(** C4, as amended. In a run whose CSRF fetch and crypto login do not
    fail, the MFA check is made exactly when the originating worker has no
    pagemod; and in no run is it made for the login-form worker. *)
Theorem mfa_check_iff_no_pagemod c pg passphrase remember redirect :
  let final := snd (snd (login remote passphrase remember redirect (c, pg))) in
  (retrieveAndStoreCsrfToken remote = Ok tt →
   auth_login remote passphrase = Ok tt →
   (IsLoggedIn ∈ events_since pg final ↔ pageMod (worker c) = None))
  ∧ (is_AuthForm (worker c) = true → IsLoggedIn ∉ events_since pg final).
Proof.
  cbn zeta.
  assert (∀ t, IsLoggedIn ∈ t ↔ IsLoggedIn ∈ steps t) as Hsteps
    by (intros t; rewrite elem_of_steps; intuition).
  split.
  - intros Hcsrf Hlogin. rewrite Hsteps, login_steps.
    destruct (_beforeLogin (c, pg)) as [[[]|e] [c0 pg0]] eqn:Hhook.
    + unfold expected_steps. rewrite Hcsrf, Hlogin.
      destruct (pageMod (worker c)); in_list.
    + apply beforeLogin_failed in Hhook as (Hform & _).
      unfold is_AuthForm in Hform. destruct (pageMod (worker c)); in_list.
  - intros Hform. rewrite Hsteps, login_steps.
    destruct (_beforeLogin (c, pg)) as [[[]|e] s0]; [|in_list].
    unfold expected_steps. unfold is_AuthForm in Hform.
    destruct (pageMod (worker c)); [|done].
    destruct (retrieveAndStoreCsrfToken remote); [|in_list].
    destruct (auth_login remote passphrase); in_list.
Qed.

(** *** The claims about the delivery of the outcome *)

Lemma emits_app (l1 l2 : list Event) : emits (l1 ++ l2) = (emits l1 ++ emits l2)%list.
Proof. apply List.filter_app. Qed.

Lemma emits_expected wk passphrase : emits (expected_steps remote wk passphrase) = [].
Proof.
  unfold expected_steps.
  destruct (retrieveAndStoreCsrfToken remote), (auth_login remote passphrase),
    (pageMod wk), (isLoggedIn remote); reflexivity.
Qed.

Lemma emits_before_success wk passphrase remember :
  emits (events_before_success remote wk passphrase remember) = [].
Proof.
  unfold events_before_success, sync_events.
  destruct (pageMod wk), (settings_sync remote), (truthy remember); reflexivity.
Qed.

Lemma emits_failure_emit c p e : emits [failure_emit c p e] = [failure_emit c p e].
Proof. unfold failure_emit. by destruct (is_AuthForm (worker c)). Qed.

Lemma emits_success_emit c p url : emits [success_emit c p url] = [success_emit c p url].
Proof. unfold success_emit. by destruct (is_AuthForm (worker c)). Qed.

Lemma failure_emit_worker c c0 p e :
  worker c0 = worker c → requestId c0 = requestId c →
  failure_emit c0 p e = failure_emit c p e.
Proof. unfold failure_emit. by intros -> ->. Qed.

Lemma success_emit_worker c c0 p url :
  worker c0 = worker c → requestId c0 = requestId c →
  success_emit c0 p url = success_emit c p url.
Proof. unfold success_emit. by intros -> ->. Qed.

Lemma unhandled_grows (l : list error) (e : error) : (l ++ [e])%list ≠ l.
Proof.
  intros Heq. apply (f_equal length) in Heq. rewrite length_app in Heq. cbn in Heq. lia.
Qed.

Lemma auth_port_logged c evs pg : auth_port c (logged evs pg) = auth_port c pg.
Proof. reflexivity. Qed.

Lemma auth_port_after_steps c wk passphrase remember pg :
  auth_port c (after_steps remote wk passphrase remember pg) = auth_port c pg.
Proof. reflexivity. Qed.

Lemma trustedDomain_after_steps wk passphrase remember pg :
  trustedDomain (after_steps remote wk passphrase remember pg) = trustedDomain pg.
Proof. reflexivity. Qed.

(** What a completed run has emitted: the hook's processing signal for
    the login form, then the report of the outcome on the port of the
    mode. *)
Lemma completed_emits c pg passphrase remember redirect :
  let run := login remote passphrase remember redirect (c, pg) in
  completed pg run →
  ∃ p url,
    (if is_AuthForm (worker c)
     then workers pg !! ("Auth", id (tab (worker c))) = Some p
     else p = port (worker c))
    ∧ emits (events_since pg (snd (snd run)))
      = ((if is_AuthForm (worker c)
          then [Emit p "passbolt.auth.login-processing" [Str (l10n "Logging in")]]
          else [])
         ++ [match first_failure remote (worker c) passphrase with
             | Some e => failure_emit c p e
             | None => success_emit c p url
             end])%list
    ∧ (is_AuthForm (worker c) = true →
       first_failure remote (worker c) passphrase = None →
       URL_href (redirect_target (trustedDomain pg) redirect) = Some url).
Proof.
  cbn zeta. unfold completed.
  destruct (_beforeLogin (c, pg)) as [[[]|e] [c0 pg0]] eqn:Hhook.
  - rewrite (login_run _ _ _ _ _ _ _ Hhook).
    apply beforeLogin_ok in Hhook
      as (Hworker & Hrequest & Hstore & Hworkers & _ & Hunhandled & Hcase).
    assert (∃ p, (if is_AuthForm (worker c)
                  then workers pg !! ("Auth", id (tab (worker c))) = Some p
                       ∧ auth_port c0 pg0 = Some p
                  else p = port (worker c))
                 ∧ trace pg0 = (trace pg ++
                     (if is_AuthForm (worker c)
                      then [Emit p "passbolt.auth.login-processing" [Str (l10n "Logging in")]]
                      else []))%list) as (p & Hp & Htrace).
    { destruct (is_AuthForm (worker c)).
      - destruct Hcase as (p & Hport & Htab & ->). exists p. split; [|done].
        split; [|done]. unfold auth_port in Hport. by rewrite Htab, Hworkers in Hport.
      - destruct Hcase as [_ ->]. exists (port (worker c)). by rewrite app_nil_r. }
    destruct (first_failure remote (worker c) passphrase) as [e|] eqn:Hfail.
    + rewrite handleLoginError_run, Hworker, auth_port_logged.
      destruct (is_AuthForm (worker c)) eqn:Hform.
      * destruct Hp as [Hp ->]. cbn. intros _. exists p, "". split; [done|].
        split; [|done].
        erewrite events_since_logged
          by (unfold logged, after_steps; cbn [trace]; rewrite Htrace;
              by rewrite <- !app_assoc).
        rewrite !emits_app, emits_expected, emits_failure_emit. cbn.
        by rewrite (failure_emit_worker c c0).
      * subst p. cbn. intros _. exists (port (worker c)), "". split; [done|].
        split; [|done].
        erewrite events_since_logged
          by (unfold logged, after_steps; cbn [trace]; rewrite Htrace;
              by rewrite <- !app_assoc).
        rewrite !emits_app, emits_expected, emits_failure_emit. cbn.
        by rewrite (failure_emit_worker c c0).
    + rewrite handleLoginSuccess_run, Hworker, auth_port_after_steps,
        trustedDomain_after_steps.
      destruct (PassboltApp_init remote) as [[]|e]; cbn;
        [|intros [_ Hgrown]; rewrite <- Hunhandled in Hgrown;
          by apply unhandled_grows in Hgrown].
      destruct (is_AuthForm (worker c)) eqn:Hform; cbn.
      * destruct Hp as [Hp ->].
        replace (trustedDomain pg0) with (trustedDomain pg)
          by (unfold trustedDomain; by rewrite Hstore).
        destruct (URL_href (redirect_target (trustedDomain pg) redirect)) as [url|];
          cbn; [|intros [_ Hgrown]; rewrite <- Hunhandled in Hgrown;
                 by apply unhandled_grows in Hgrown].
        intros _. exists p, url. split; [done|]. split; [|done].
        erewrite events_since_logged
          by (unfold logged, after_steps; cbn [trace]; rewrite Htrace;
              by rewrite <- !app_assoc).
        change (PassboltAppInit :: [success_emit c0 p url])
          with ([PassboltAppInit] ++ [success_emit c0 p url])%list.
        rewrite !emits_app, emits_before_success, emits_success_emit. cbn.
        by rewrite (success_emit_worker c c0).
      * subst p. intros _. exists (port (worker c)), "". split; [done|].
        split; [|done].
        erewrite events_since_logged
          by (unfold logged, after_steps; cbn [trace]; rewrite Htrace;
              by rewrite <- !app_assoc).
        change (PassboltAppInit :: [success_emit c0 (port (worker c)) ""])
          with ([PassboltAppInit] ++ [success_emit c0 (port (worker c)) ""])%list.
        rewrite !emits_app, emits_before_success, emits_success_emit. cbn.
        by rewrite (success_emit_worker c c0).
  - rewrite (login_hook_failed _ _ _ _ _ _ Hhook).
    apply beforeLogin_failed in Hhook as (Hform & Hworker & -> & Hport).
    rewrite handleLoginError_run, Hworker, Hform, Hport. by intros [[=] _].
Qed.

(** C5. In a completed login from the login-form worker whose CSRF fetch
    and crypto login succeeded, the URL emitted with the success event is
    the [href] of the trusted domain alone when the redirect is missing,
    is not a string or does not start with a slash, and otherwise the
    [href] of the trusted domain followed by the redirect. *)
Theorem login_success_redirect c pg passphrase remember redirect :
  is_AuthForm (worker c) = true →
  retrieveAndStoreCsrfToken remote = Ok tt →
  auth_login remote passphrase = Ok tt →
  let run := login remote passphrase remember redirect (c, pg) in
  completed pg run →
  ∃ p url,
    workers pg !! ("Auth", id (tab (worker c))) = Some p
    ∧ URL_href (redirect_target (trustedDomain pg) redirect) = Some url
    ∧ emits (events_since pg (snd (snd run)))
      = [Emit p "passbolt.auth.login-processing" [Str (l10n "Logging in")];
         Emit p "passbolt.auth.login-success"
           [Str (l10n "You are now logged in!"); Str url]].
Proof.
  intros Hform Hcsrf Hlogin run Hcompleted.
  assert (first_failure remote (worker c) passphrase = None) as Hfail.
  { apply no_failure; [done..|]. unfold is_AuthForm in Hform.
    by destruct (pageMod (worker c)). }
  destruct (completed_emits c pg passphrase remember redirect Hcompleted)
    as (p & url & Hp & Hemits & Hurl).
  rewrite Hform, Hfail in *. exists p, url. split; [done|]. split; [by apply Hurl|].
  subst run. rewrite Hemits. unfold success_emit. by rewrite Hform.
Qed.

End AuthProperties.

(** ** The master password dialog *)

Section DialogProperties.
Import MasterPassword.

(** C7. On a completion message with status [ERROR] and [a] attempts, the
    dialog takes the button out of processing and focuses the field, then
    below three attempts puts the invalid-passphrase text and the error
    class on the label of the passphrase field, and from three attempts on
    loads the failure view instead. *)
Theorem masterCompleteHandler_attempts (token : value) (a : Z) (d : Dialog) :
  ∃ d', masterCompleteHandler token (Str "ERROR") a d = (Ok tt, d')
    ∧ effects d'
      = (effects d
         ++ [RemoveClass submitButton "processing"; Focus masterPasswordField]
         ++ (if decide (a < 3)
             then [SetHtml passphraseLabel "Please enter a valid passphrase.";
                   AddClass passphraseLabel "error"]
             else [LoadTemplate ".js_dialog_content"
                     "./tpl/master/master-password-failure.ejs"]))%list.
Proof.
  unfold masterCompleteHandler, perform.
  cbv [mbind M_bind mret M_ret modify]. cbn.
  destruct (Z.ltb_spec a 3); case_decide; try lia; eexists; (split; [done|]);
    cbn; by rewrite <- !app_assoc.
Qed.

(** What [rememberMasterPassword] attempts: were the identifier
    [masterPassword] bound where it reads it, the remember request would
    carry that value and, without a duration, 300 seconds, also through a
    click on the submit button with the remember box checked. *)
Lemma rememberMasterPassword_run (d : Dialog) :
  match global_masterPassword d with
  | Some masterPassword =>
      let request :=
        Request "passbolt.user.rememberMasterPassword" [masterPassword; Num 300] in
      (∃ d', rememberMasterPassword Undefined d = (Ok tt, d')
             ∧ effects d' = (effects d ++ [request])%list)
      ∧ (remember_checked d = true →
         ∃ d', submitButtonClicked d = (Ok tt, d')
               ∧ effects d'
                 = (effects d
                    ++ [request;
                        AddClass submitButton "processing";
                        PortEmit "passbolt.keyring.master.request.submit"
                          [context_token d; Str (masterPasswordField_val d)]])%list)
  | None =>
      rememberMasterPassword Undefined d = (Throw (ReferenceError "masterPassword"), d)
  end.
Proof.
  unfold submitButtonClicked, submitMasterPassword, rememberMasterPassword, perform.
  cbv [mbind M_bind mret M_ret modify gets throw]. cbn.
  destruct (global_masterPassword d) as [masterPassword|] eqn:Hglobal; [|done].
  cbn. split; [by eexists|]. intros ->. rewrite Hglobal. cbn.
  eexists. split; [done|]. cbn. by rewrite <- !app_assoc.
Qed.

(** C8. The script binds [masterPassword] nowhere that
    [rememberMasterPassword] can see: the only declarations are locals of
    the click and key handlers. With the identifier unbound, as the script
    leaves it, [rememberMasterPassword] throws a [ReferenceError] before
    it sends anything, whatever duration it is given; a click on the
    submit button with the remember box checked therefore throws too, and
    neither the remember request with its 300 seconds nor the passphrase
    leaves the dialog. *)
Theorem remember_request_not_sent (time : value) (d : Dialog) :
  global_masterPassword d = None →
  rememberMasterPassword time d = (Throw (ReferenceError "masterPassword"), d)
  ∧ (remember_checked d = true →
     submitButtonClicked d = (Throw (ReferenceError "masterPassword"), d)).
Proof.
  intros Hunbound.
  unfold submitButtonClicked, submitMasterPassword, rememberMasterPassword, perform.
  cbv [mbind M_bind mret M_ret modify gets throw]. cbn.
  rewrite Hunbound. split; [done|]. intros ->. cbn. by rewrite Hunbound.
Qed.

End DialogProperties.

(** ** Further properties of the authentication controller *)

Section AuthFurther.
Context `{Vendors}.
Import Auth LoginSpec.

Ltac arun :=
  cbv [_beforeLogin verify emit Worker_get_port set_tabId this log
       mbind M_bind mret M_ret lift throw modify gets try_catch];
  cbn.

(** One run of the before-login hook. *)
Lemma beforeLogin_run c pg :
  _beforeLogin (c, pg)
  = if is_AuthForm (worker c) then
      match workers pg !! ("Auth", id (tab (worker c))) with
      | Some p =>
          (Ok tt, (recorded c,
                   logged [Emit p "passbolt.auth.login-processing"
                             [Str (l10n "Logging in")]] pg))
      | None => (Throw (mkError "Could not find worker Auth"), (recorded c, pg))
      end
    else (Ok tt, (c, pg)).
Proof.
  unfold recorded, logged. arun. destruct (is_AuthForm (worker c)); cbn; [|done].
  by destruct (workers pg !! ("Auth", id (tab (worker c)))).
Qed.

(** The end of a run whose hook returned and whose fatal steps passed. *)
Lemma login_succeeded remote c pg passphrase remember redirect c0 pg0 :
  _beforeLogin (c, pg) = (Ok tt, (c0, pg0)) →
  first_failure remote (worker c) passphrase = None →
  let outcome := success_outcome (PassboltApp_init remote) c0 pg0 redirect in
  login remote passphrase remember redirect (c, pg)
  = (Ok tt,
     (c0, {| store := store pg0; workers := workers pg0;
             remembered := if truthy remember then Some (passphrase, remember)
                           else remembered pg0;
             trace := trace pg0
                      ++ events_before_success remote (worker c) passphrase remember
                      ++ PassboltAppInit :: fst outcome;
             unhandled := unhandled pg0 ++ snd outcome |})).
Proof.
  intros Hhook Hfail. cbn zeta.
  rewrite (login_run remote _ _ _ _ _ _ _ Hhook), Hfail.
  rewrite handleLoginSuccess_run, auth_port_after_steps, trustedDomain_after_steps.
  unfold success_outcome, after_steps, logged, rejected.
  generalize (events_before_success remote (worker c) passphrase remember).
  intros evs. cbn.
  destruct (PassboltApp_init remote) as [[]|e]; cbn;
    [|by rewrite <- !app_assoc].
  destruct (is_AuthForm (worker c0)); cbn;
    [|by rewrite app_nil_r, <- !app_assoc].
  destruct (URL_href _) as [url|]; cbn; [|by rewrite <- !app_assoc].
  destruct (auth_port c0 pg0); cbn; by rewrite <- ?app_assoc, ?app_nil_r.
Qed.

Lemma emits_success_outcome init c pg redirect :
  emits (fst (success_outcome init c pg redirect))
  = fst (success_outcome init c pg redirect).
Proof.
  unfold success_outcome. destruct init as [[]|e]; [|done].
  destruct (is_AuthForm (worker c)) eqn:Hform; cbn zeta.
  - destruct (URL_href _); [|done]. destruct (auth_port c pg); [|done].
    unfold success_emit. by rewrite Hform.
  - unfold success_emit. by rewrite Hform.
Qed.

(** Every run either is deliverable and completes, or is not deliverable,
    does not complete and reports no outcome: it emits nothing, or the
    processing signal alone. *)
Lemma delivered_or_lost remote c pg passphrase remember redirect :
  let run := login remote passphrase remember redirect (c, pg) in
  let emitted := emits (events_since pg (snd (snd run))) in
  (deliverable remote c pg passphrase redirect ∧ completed pg run)
  ∨ (¬ deliverable remote c pg passphrase redirect ∧ ¬ completed pg run
     ∧ (emitted = []
        ∨ ∃ p, emitted
               = [Emit p "passbolt.auth.login-processing" [Str (l10n "Logging in")]])).
Proof.
  cbn zeta. unfold deliverable, completed.
  pose proof (beforeLogin_run c pg) as Hhook.
  pose proof (emits_before_success remote (worker c) passphrase remember) as Hsteps.
  destruct (is_AuthForm (worker c)) eqn:Hform.
  - destruct (workers pg !! ("Auth", id (tab (worker c)))) as [p|] eqn:Hp.
    + destruct (first_failure remote (worker c) passphrase) as [e|] eqn:Hfail.
      * left. rewrite (login_run remote _ _ _ _ _ _ _ Hhook), Hfail.
        rewrite handleLoginError_run, auth_port_logged. unfold auth_port, recorded.
        cbn. rewrite Hform, Hp. cbn. by repeat split.
      * rewrite (login_succeeded remote _ _ _ _ _ _ _ Hhook Hfail).
        unfold success_outcome, auth_port, trustedDomain, recorded, logged.
        revert Hsteps.
        generalize (events_before_success remote (worker c) passphrase remember).
        intros steps Hsteps. cbn. rewrite Hform, Hp. cbn.
        fold (trustedDomain pg).
        destruct (PassboltApp_init remote) as [[]|e] eqn:Hinit; cbn.
        -- destruct (URL_href (redirect_target (trustedDomain pg) redirect))
             as [url|] eqn:Hurl; cbn.
           ++ left. rewrite app_nil_r. by repeat split.
           ++ right.
              split; [by intros [_ Hdel]; destruct (Hdel eq_refl) as [_ [? [=]]]|].
              split; [by intros [_ Hgrown%unhandled_grows]|].
              right. exists p.
              erewrite events_since_logged by (cbn [trace]; by rewrite <- !app_assoc).
              by rewrite !emits_app, Hsteps.
        -- right.
           split; [by intros [_ Hdel]; destruct (Hdel eq_refl) as [[=] _]|].
           split; [by intros [_ Hgrown%unhandled_grows]|].
           right. exists p.
           erewrite events_since_logged by (cbn [trace]; by rewrite <- !app_assoc).
           by rewrite !emits_app, Hsteps.
    + right. rewrite (login_hook_failed remote _ _ _ _ _ _ Hhook).
      rewrite handleLoginError_run. unfold auth_port, recorded. cbn.
      rewrite Hform, Hp. cbn.
      split; [by intros [Hauth _]; destruct (Hauth eq_refl) as [? [=]]|].
      split; [by intros [[=] _]|]. left. unfold events_since. by rewrite drop_all.
  - destruct (first_failure remote (worker c) passphrase) as [e|] eqn:Hfail.
    + left. rewrite (login_run remote _ _ _ _ _ _ _ Hhook), Hfail.
      rewrite handleLoginError_run, Hform. cbn. by repeat split.
    + rewrite (login_succeeded remote _ _ _ _ _ _ _ Hhook Hfail).
      unfold success_outcome. rewrite Hform. revert Hsteps.
      generalize (events_before_success remote (worker c) passphrase remember).
      intros steps Hsteps.
      destruct (PassboltApp_init remote) as [[]|e] eqn:Hinit; cbn.
      * left. rewrite app_nil_r. by repeat split.
      * right. split; [by intros [_ Hdel]; destruct (Hdel eq_refl) as [[=] _]|].
        split; [by intros [_ Hgrown%unhandled_grows]|].
        left. erewrite events_since_logged by reflexivity.
        by rewrite !emits_app, Hsteps.
Qed.

(** C6. A login completes exactly when it is deliverable: the ['Auth']
    worker of the tab exists for the login form and, when no fatal step
    fails, the application starts and the redirect URL parses. Such a
    login reports its outcome once, in the mode of the originating worker.
    For the login-form worker the report goes to the ['Auth'] worker of
    the worker's tab, after the processing signal: on the success channel
    with the message and the redirect URL, or on the failure channel with
    the message of the error. For any other worker it goes to the worker's
    own port under the request id, with [SUCCESS], or with [ERROR] and the
    emitable form of the error. A login that does not complete reports no
    outcome at all. *)
Theorem login_outcome_routing remote c pg passphrase remember redirect :
  let run := login remote passphrase remember redirect (c, pg) in
  let emitted := emits (events_since pg (snd (snd run))) in
  (completed pg run ↔ deliverable remote c pg passphrase redirect)
  ∧ (deliverable remote c pg passphrase redirect →
     if is_AuthForm (worker c) then
       ∃ p outcome,
         workers pg !! ("Auth", id (tab (worker c))) = Some p
         ∧ emitted
           = [Emit p "passbolt.auth.login-processing" [Str (l10n "Logging in")];
              outcome]
         ∧ match first_failure remote (worker c) passphrase with
           | None =>
               ∃ url,
                 URL_href (redirect_target (trustedDomain pg) redirect) = Some url
                 ∧ outcome = Emit p "passbolt.auth.login-success"
                               [Str (l10n "You are now logged in!"); Str url]
           | Some e =>
               outcome = Emit p "passbolt.auth.login-failed" [Str (message e)]
           end
     else
       emitted
       = [match first_failure remote (worker c) passphrase with
          | None => Emit (port (worker c)) (requestId c) [Str "SUCCESS"]
          | Some e =>
              Emit (port (worker c)) (requestId c) [Str "ERROR"; getEmitableError e]
          end])
  ∧ (¬ deliverable remote c pg passphrase redirect →
     emitted = []
     ∨ ∃ p, emitted
            = [Emit p "passbolt.auth.login-processing" [Str (l10n "Logging in")]]).
Proof.
  cbn zeta.
  pose proof (delivered_or_lost remote c pg passphrase remember redirect) as Hcases.
  cbn zeta in Hcases.
  split; [destruct Hcases as [[? ?]|(? & ? & _)]; by split|].
  split.
  - intros Hdeliverable.
    destruct Hcases as [[_ Hcompleted]|(Hnot & _)]; [|done].
    destruct (completed_emits remote c pg passphrase remember redirect Hcompleted)
      as (p & url & Hp & -> & Hurl).
    unfold failure_emit, success_emit.
    destruct (is_AuthForm (worker c)).
    + exists p. eexists. split; [done|]. split; [done|].
      destruct (first_failure remote (worker c) passphrase); [done|].
      exists url. split; [by apply Hurl | done].
    + subst p. by destruct (first_failure remote (worker c) passphrase).
  - intros Hnot. by destruct Hcases as [[? _]|(_ & _ & ?)].
Qed.

(** X9. [verify] never throws and answers the request exactly once, on
    the port of the originating worker under the request id, whatever the
    worker is: [SUCCESS] with the verified message when the crypto engine
    verifies the server key, [ERROR] with the message of the error after
    the fixed text otherwise. *)
Theorem verify_answers_once (outcome : result unit) c pg :
  verify outcome (c, pg)
  = (Ok tt,
     (c, logged
           [Emit (port (worker c)) (requestId c)
              match outcome with
              | Ok _ =>
                  [Str "SUCCESS";
                   Str (l10n "The server key is verified. The server can use it to sign and decrypt content.")]
              | Throw e =>
                  [Str "ERROR";
                   Str (l10n "Could not verify server key." ++ " " ++ message e)]
              end] pg)).
Proof. unfold logged. arun. by destruct outcome as [[]|e]. Qed.

(** X10. A login from a worker that is not the login form never throws,
    and the requester gets exactly one answer, [ERROR] on the first fatal
    failure and [SUCCESS] otherwise, except that it gets none when the
    fatal steps passed and the application start throws. *)
Theorem requester_is_answered remote c pg passphrase remember redirect :
  is_AuthForm (worker c) = false →
  let run := login remote passphrase remember redirect (c, pg) in
  fst run = Ok tt
  ∧ emits (events_since pg (snd (snd run)))
    = match first_failure remote (worker c) passphrase, PassboltApp_init remote with
      | Some e, _ =>
          [Emit (port (worker c)) (requestId c) [Str "ERROR"; getEmitableError e]]
      | None, Ok _ => [Emit (port (worker c)) (requestId c) [Str "SUCCESS"]]
      | None, Throw _ => []
      end.
Proof.
  intros Hform. cbn zeta.
  assert (_beforeLogin (c, pg) = (Ok tt, (c, pg))) as Hhook
    by (by rewrite beforeLogin_run, Hform).
  destruct (first_failure remote (worker c) passphrase) as [e|] eqn:Hfail.
  - rewrite (login_run remote _ _ _ _ _ _ _ Hhook), Hfail.
    rewrite handleLoginError_run, Hform. cbn [fst snd]. split; [done|].
    erewrite events_since_logged by (unfold logged; cbn [trace]; by rewrite <- app_assoc).
    rewrite emits_app, emits_expected, emits_failure_emit.
    unfold failure_emit. by rewrite Hform.
  - rewrite (login_succeeded remote _ _ _ _ _ _ _ Hhook Hfail). cbn [fst snd].
    split; [done|].
    erewrite events_since_logged by reflexivity.
    rewrite emits_app, emits_before_success.
    change (PassboltAppInit :: ?l) with ([PassboltAppInit] ++ l)%list.
    rewrite emits_app, emits_success_outcome. cbn.
    unfold success_outcome, success_emit. rewrite Hform.
    by destruct (PassboltApp_init remote) as [[]|e].
Qed.

(** X11. The remembered passphrase changes in one case only: the hook
    returned, none of the fatal steps failed and remembering was asked; it
    then holds the passphrase with the [remember] argument. In every other
    run it is what it was. *)
Theorem remembered_only_after_fatal_steps remote c pg passphrase remember redirect :
  remembered (snd (snd (login remote passphrase remember redirect (c, pg))))
  = match _beforeLogin (c, pg), first_failure remote (worker c) passphrase with
    | (Ok _, _), None =>
        if truthy remember then Some (passphrase, remember) else remembered pg
    | _, _ => remembered pg
    end.
Proof.
  destruct (_beforeLogin (c, pg)) as [[[]|e] [c0 pg0]] eqn:Hhook.
  - destruct (login_page remote _ _ passphrase remember redirect _ _ Hhook)
      as (hook & tail & _ & _ & Hcase).
    by destruct (first_failure remote (worker c) passphrase); destruct Hcase as [_ ->].
  - rewrite (login_hook_failed remote _ _ _ _ _ _ Hhook).
    apply beforeLogin_failed in Hhook as (_ & _ & -> & _).
    by destruct (handleLoginError_page e c0 pg) as (r & report & -> & _).
Qed.

(** X12. The outcome of the settings sync is invisible to the requester:
    two runs that differ only in it return alike, emit alike, remember
    alike and leave the same rejections behind. *)
Theorem sync_outcome_is_invisible remote remote' c pg passphrase remember redirect :
  retrieveAndStoreCsrfToken remote = retrieveAndStoreCsrfToken remote' →
  auth_login remote passphrase = auth_login remote' passphrase →
  isLoggedIn remote = isLoggedIn remote' →
  PassboltApp_init remote = PassboltApp_init remote' →
  let run := login remote passphrase remember redirect (c, pg) in
  let run' := login remote' passphrase remember redirect (c, pg) in
  fst run = fst run'
  ∧ fst (snd run) = fst (snd run')
  ∧ emits (events_since pg (snd (snd run))) = emits (events_since pg (snd (snd run')))
  ∧ remembered (snd (snd run)) = remembered (snd (snd run'))
  ∧ unhandled (snd (snd run)) = unhandled (snd (snd run')).
Proof.
  intros Hcsrf Hlogin Hmfa Hinit. cbn zeta.
  assert (first_failure remote (worker c) passphrase
          = first_failure remote' (worker c) passphrase) as Hfail
    by (unfold first_failure; by rewrite Hcsrf, Hlogin, Hmfa).
  assert (expected_steps remote (worker c) passphrase
          = expected_steps remote' (worker c) passphrase) as Hsteps
    by (unfold expected_steps; by rewrite Hcsrf, Hlogin, Hmfa).
  destruct (_beforeLogin (c, pg)) as [[[]|e] [c0 pg0]] eqn:Hhook.
  - destruct (first_failure remote' (worker c) passphrase) as [e|] eqn:Hfail'.
    + by rewrite (login_run remote _ _ _ _ _ _ _ Hhook),
        (login_run remote' _ _ _ _ _ _ _ Hhook), Hfail, Hfail', Hsteps.
    + rewrite (login_succeeded remote _ _ _ _ _ _ _ Hhook Hfail),
        (login_succeeded remote' _ _ _ _ _ _ _ Hhook Hfail'), Hinit.
      cbn [fst snd remembered unhandled]. do 2 (split; [done|]).
      split; [|done].
      destruct (beforeLogin_trace _ _ _ _ Hhook) as (hook & Htrace & _).
      erewrite !events_since_logged
        by (cbn [trace]; rewrite Htrace; by rewrite <- !app_assoc).
      by rewrite !emits_app, !emits_before_success.
  - by rewrite (login_hook_failed remote _ _ _ _ _ _ Hhook),
      (login_hook_failed remote' _ _ _ _ _ _ Hhook).
Qed.

(** X13. A login from the login form of a tab that has no ['Auth'] worker
    throws: the hook fails, the failure handler fails in turn, no step is
    made and nothing is emitted or remembered; only the tab is recorded. *)
Theorem login_form_without_auth_worker remote c pg passphrase remember redirect :
  is_AuthForm (worker c) = true →
  workers pg !! ("Auth", id (tab (worker c))) = None →
  ∃ e, login remote passphrase remember redirect (c, pg)
       = (Throw e, (recorded c, pg)).
Proof.
  intros Hform Hnone.
  assert (_beforeLogin (c, pg)
          = (Throw (mkError "Could not find worker Auth"), (recorded c, pg))) as Hhook
    by (by rewrite beforeLogin_run, Hform, Hnone).
  rewrite (login_hook_failed remote _ _ _ _ _ _ Hhook), handleLoginError_run.
  unfold auth_port. cbn. rewrite Hform, Hnone. eauto.
Qed.

(** X14. When the fatal steps passed and the application start throws,
    the outcome is lost: [login] returns without error, nothing is emitted
    after the hook, the error ends as an unhandled rejection, and the
    passphrase is remembered all the same when that was asked. *)
Theorem application_start_failure_is_silent remote c pg passphrase remember redirect
    c0 pg0 e :
  _beforeLogin (c, pg) = (Ok tt, (c0, pg0)) →
  first_failure remote (worker c) passphrase = None →
  PassboltApp_init remote = Throw e →
  let run := login remote passphrase remember redirect (c, pg) in
  fst run = Ok tt
  ∧ emits (events_since pg0 (snd (snd run))) = []
  ∧ unhandled (snd (snd run)) = (unhandled pg0 ++ [e])%list
  ∧ remembered (snd (snd run))
    = if truthy remember then Some (passphrase, remember) else remembered pg0.
Proof.
  intros Hhook Hfail Hinit. cbn zeta.
  rewrite (login_succeeded remote _ _ _ _ _ _ _ Hhook Hfail), Hinit.
  cbn [fst snd remembered unhandled success_outcome].
  split; [done|]. split; [|by split].
  erewrite events_since_logged by reflexivity.
  by rewrite emits_app, emits_before_success.
Qed.

(** X20. No run reports an outcome twice, and the two handlers never
    both report: after the hook a run emits nothing, or the failure report
    of the first fatal failure alone, or the success report alone when no
    fatal step failed. A run whose hook throws adds no event at all. *)
Theorem at_most_one_report remote c pg passphrase remember redirect :
  let final := snd (snd (login remote passphrase remember redirect (c, pg))) in
  match _beforeLogin (c, pg) with
  | (Ok _, (c0, pg0)) =>
      emits (events_since pg0 final) = []
      ∨ (∃ p e, first_failure remote (worker c) passphrase = Some e
                ∧ emits (events_since pg0 final) = [failure_emit c0 p e])
      ∨ (∃ p url, first_failure remote (worker c) passphrase = None
                  ∧ emits (events_since pg0 final) = [success_emit c0 p url])
  | (Throw _, _) => events_since pg final = []
  end.
Proof.
  cbn zeta.
  destruct (_beforeLogin (c, pg)) as [[[]|e] [c0 pg0]] eqn:Hhook.
  - destruct (first_failure remote (worker c) passphrase) as [e|] eqn:Hfail.
    + rewrite (login_run remote _ _ _ _ _ _ _ Hhook), Hfail.
      destruct (handleLoginError_page e c0
        (logged (expected_steps remote (worker c) passphrase) pg0))
        as (r & report & -> & Hreport).
      cbn [snd].
      erewrite events_since_logged
        by (unfold logged; cbn [trace]; by rewrite <- app_assoc).
      rewrite emits_app, emits_expected. cbn [app].
      destruct Hreport as [->|[p ->]]; [by left|].
      right. left. exists p, e. by rewrite emits_failure_emit.
    + rewrite (login_succeeded remote _ _ _ _ _ _ _ Hhook Hfail). cbn [snd].
      erewrite events_since_logged by reflexivity.
      rewrite emits_app, emits_before_success.
      change (PassboltAppInit :: ?l) with ([PassboltAppInit] ++ l)%list.
      rewrite emits_app, emits_success_outcome. cbn.
      unfold success_outcome.
      destruct (PassboltApp_init remote) as [[]|e]; [|by left].
      destruct (is_AuthForm (worker c0)); cbn zeta.
      * destruct (URL_href _) as [url|]; [|by left].
        destruct (auth_port c0 pg0) as [p|]; [|by left].
        right. right. by exists p, url.
      * right. right. by exists (port (worker c0)), "".
  - rewrite (login_hook_failed remote _ _ _ _ _ _ Hhook).
    apply beforeLogin_failed in Hhook as (Hform & Hworker & -> & Hport).
    rewrite handleLoginError_run, Hworker, Hform, Hport. cbn [snd].
    unfold events_since. apply drop_all.
Qed.

End AuthFurther.

(** ** Further properties of the master password dialog *)

Section DialogFurther.
Import MasterPassword.

Ltac drun :=
  cbv [submitButtonClicked submitMasterPassword rememberMasterPassword
       masterPasswordFieldKeypressed focusFirstFieldKeypressed closeDialog
       stealFocus stealFocus_fire set_val perform
       mbind M_bind mret M_ret modify gets throw];
  cbn.

Lemma effects_since_app (d d' : Dialog) (new : list Effect) :
  effects d' = (effects d ++ new)%list → effects_since d d' = new.
Proof. unfold effects_since. intros ->. apply drop_app_length. Qed.

Lemma printable_escape (keycode : Z) :
  keycode = 27 → printable (fromCharCode keycode) = false.
Proof. by intros ->. Qed.

(** X15. A key pressed in the passphrase field: Enter submits what the
    field holds under the context token, Escape asks to close the dialog,
    any other key does nothing. In no case is the remember request sent,
    the remember box checked or not. *)
Theorem passphrase_field_keypress (ev : KeyEvent) (d : Dialog) :
  ∃ d', masterPasswordFieldKeypressed (keycode_of ev) d = (Ok tt, d')
    ∧ masterPasswordField_val d' = masterPasswordField_val d
    ∧ effects_since d d'
      = (if decide (keycode_of ev = 13)
         then [AddClass submitButton "processing";
               PortEmit "passbolt.keyring.master.request.submit"
                 [context_token d; Str (masterPasswordField_val d)]]
         else if decide (keycode_of ev = 27)
         then [MessageEmit "passbolt.master-password.close-dialog" []]
         else [])
    ∧ ∀ channel args, Request channel args ∉ effects_since d d'.
Proof.
  drun.
  destruct (Z.eqb_spec (keycode_of ev) 13) as [->|Hne13]; cbn.
  - eexists. split; [done|]. split; [done|].
    erewrite effects_since_app by (cbn; by rewrite <- app_assoc).
    split; [done|]. intros channel args Hin.
    apply list_elem_of_In in Hin. cbn in Hin. intuition congruence.
  - destruct (Z.eqb_spec (keycode_of ev) 27) as [Heq|Hne27]; cbn.
    + eexists. split; [done|]. split; [done|].
      erewrite effects_since_app by reflexivity.
      repeat case_decide; try done. split; [done|]. intros channel args Hin.
      apply list_elem_of_In in Hin. cbn in Hin. intuition congruence.
    + exists d. split; [done|]. split; [done|].
      erewrite effects_since_app by (by rewrite app_nil_r).
      repeat case_decide; try done. split; [done|]. intros channel args Hin.
      by apply not_elem_of_nil in Hin.
Qed.

(** X16. A click on the submit button submits the passphrase exactly when
    the remember box is unchecked or the identifier [masterPassword] is
    bound. With the box checked and the identifier unbound the click
    throws and changes nothing: the passphrase is not submitted. *)
Theorem click_submits_unless_unbound (d : Dialog) :
  let run := submitButtonClicked d in
  let submit :=
    PortEmit "passbolt.keyring.master.request.submit"
      [context_token d; Str (masterPasswordField_val d)] in
  (submit ∈ effects_since d (snd run)
   ↔ remember_checked d = false ∨ global_masterPassword d ≠ None)
  ∧ (remember_checked d = true → global_masterPassword d = None →
     run = (Throw (ReferenceError "masterPassword"), d))
  ∧ (remember_checked d = false →
     fst run = Ok tt
     ∧ effects_since d (snd run) = [AddClass submitButton "processing"; submit]).
Proof.
  cbn zeta. drun.
  destruct (remember_checked d); cbn.
  - destruct (global_masterPassword d) as [masterPassword|] eqn:Hglobal; cbn.
    + erewrite effects_since_app by (cbn; by rewrite <- !app_assoc).
      split; [|done]. split; [by right|]. intros _.
      apply list_elem_of_In. cbn. tauto.
    + erewrite effects_since_app by (by rewrite app_nil_r).
      split; [|done]. split; [by intros Hin%not_elem_of_nil | intros [|]; done].
  - erewrite effects_since_app by (cbn; by rewrite <- !app_assoc).
    split; [|done]. split; [by left|]. intros _.
    apply list_elem_of_In. cbn. tauto.
Qed.

(** X17. A key pressed in the focus-first field leaves the passphrase
    field holding exactly the typed character when the key is printable,
    whatever the field held, and leaves it as it was otherwise. *)
Theorem focus_first_keypress_value (ev : KeyEvent) (d : Dialog) :
  ∃ d', focusFirstFieldKeypressed ev d = (Ok tt, d')
    ∧ masterPasswordField_val d'
      = (if printable (fromCharCode (keycode_of ev))
         then char_string (fromCharCode (keycode_of ev))
         else masterPasswordField_val d)
    ∧ remember_checked d' = remember_checked d.
Proof.
  drun.
  destruct (Z.eqb_spec (keycode_of ev) 27) as [Heq|Hne27]; cbn.
  - rewrite (printable_escape _ Heq). by eexists.
  - destruct (printable (fromCharCode (keycode_of ev))); cbn; [by eexists|].
    destruct (Z.eqb (keycode_of ev) 9); cbn; by eexists.
Qed.

(** X18. A key pressed in the focus-first field never submits the
    passphrase and never sends a request. Escape asks to close the dialog
    and moves no focus; any other key moves the focus to the passphrase
    field exactly when it is printable or Tab. *)
Theorem focus_first_keypress_effects (ev : KeyEvent) (d : Dialog) :
  let d' := snd (focusFirstFieldKeypressed ev d) in
  let keycode := keycode_of ev in
  effects_since d d'
  = (PreventDefault ::
     if decide (keycode = 27)
     then [MessageEmit "passbolt.master-password.close-dialog" []]
     else if printable (fromCharCode keycode) || bool_decide (keycode = 9)
     then [Focus masterPasswordField]
     else [])
  ∧ ∀ channel args,
      (PortEmit channel args ∉ effects_since d d')
      ∧ (Request channel args ∉ effects_since d d').
Proof.
  cbn zeta.
  assert (effects_since d (snd (focusFirstFieldKeypressed ev d))
    = (PreventDefault ::
       if decide (keycode_of ev = 27)
       then [MessageEmit "passbolt.master-password.close-dialog" []]
       else if printable (fromCharCode (keycode_of ev))
               || bool_decide (keycode_of ev = 9)
       then [Focus masterPasswordField]
       else [])) as Heffects.
  { drun.
    destruct (Z.eqb_spec (keycode_of ev) 27) as [Heq|Hne27]; cbn.
    - erewrite effects_since_app by (cbn; by rewrite <- app_assoc).
      by case_decide.
    - case_decide; [done|].
      destruct (printable (fromCharCode (keycode_of ev))); cbn.
      + by erewrite effects_since_app by (cbn; by rewrite <- app_assoc).
      + destruct (Z.eqb_spec (keycode_of ev) 9) as [Heq9|Hne9]; cbn.
        * erewrite effects_since_app by (cbn; by rewrite <- app_assoc).
          by rewrite bool_decide_eq_true_2.
        * erewrite effects_since_app by reflexivity.
          by rewrite bool_decide_eq_false_2. }
  split; [done|]. rewrite Heffects. intros channel args.
  rewrite !list_elem_of_In.
  case_decide; [|destruct (_ || _)]; cbn; intuition congruence.
Qed.

(** The firings of the interval of [stealFocus]. *)
Lemma stealFocus_interval_run (firings : list bool) (d : Dialog) :
  ∃ resolved attempts d',
    stealFocus_interval firings d = (Ok resolved, d')
    ∧ effects d' = (effects d ++ replicate attempts (Focus focusFirstField))%list
    ∧ masterPasswordField_val d' = masterPasswordField_val d
    ∧ (resolved = true →
       ∃ k, attempts = S k ∧ firings !! k = Some true
            ∧ Forall (λ has_focus, has_focus = false) (take k firings))
    ∧ (resolved = false →
       attempts = length firings
       ∧ Forall (λ has_focus, has_focus = false) firings).
Proof.
  revert d. induction firings as [|has_focus later IH]; intros d.
  - exists false, 0%nat, d. cbn. rewrite app_nil_r. by repeat split.
  - cbn [stealFocus_interval]. drun. destruct has_focus.
    + eexists true, 1%nat, _. split; [done|]. cbn. split; [done|]. split; [done|].
      split; [|done]. intros _. exists 0%nat. by repeat split.
    + match goal with |- context [stealFocus_interval later ?d1] =>
        destruct (IH d1) as (resolved & attempts & d' & -> & Heffects & Hval & Hyes & Hno)
      end.
      exists resolved, (S attempts), d'. split; [done|]. cbn in *.
      split; [by rewrite Heffects, <- app_assoc|]. split; [done|]. split.
      * intros Hres. destruct (Hyes Hres) as (k & -> & Hk & Hbefore).
        exists (S k). split; [done|]. split; [done|]. cbn. by constructor.
      * intros Hres. destruct (Hno Hres) as [-> Hall]. split; [done|].
        by constructor.
Qed.

(** X19. [stealFocus] first asks the page to release its focuses, then
    requests the focus once per firing of its interval. It resolves at the
    first firing after which the field has the focus and makes no attempt
    after it; while no firing gets the focus it keeps trying and does not
    resolve. *)
Theorem stealFocus_stops_at_first_focus (firings : list bool) (d : Dialog) :
  ∃ resolved attempts d',
    stealFocus firings d = (Ok resolved, d')
    ∧ effects_since d d'
      = MessageEmit "passbolt.passbolt-page.remove_all_focuses" []
        :: replicate attempts (Focus focusFirstField)
    ∧ (resolved = true →
       ∃ k, attempts = S k ∧ firings !! k = Some true
            ∧ Forall (λ has_focus, has_focus = false) (take k firings))
    ∧ (resolved = false →
       attempts = length firings
       ∧ Forall (λ has_focus, has_focus = false) firings).
Proof.
  unfold stealFocus. cbv [mbind M_bind perform modify]. cbn.
  match goal with |- context [stealFocus_interval firings ?d1] =>
    destruct (stealFocus_interval_run firings d1)
      as (resolved & attempts & d' & -> & Heffects & _ & Hyes & Hno)
  end.
  exists resolved, attempts, d'. split; [done|]. split; [|done].
  apply effects_since_app. cbn in Heffects. by rewrite Heffects, <- app_assoc.
Qed.

End DialogFurther.

(** ** The properties on the sample collaborators *)

Section Instances.
Import Auth LoginSpec Settings Sample.

(** A valid token is written and read back. *)
Lemma getSecurityToken_after_set_witness :
  setSecurityToken (token "ABC" "#ff3a3a" "#ffffff") empty_store
  = (Ok true, token_written (token "ABC" "#ff3a3a" "#ffffff") empty_store)
  ∧ ∃ t, getSecurityToken (token_written (token "ABC" "#ff3a3a" "#ffffff") empty_store)
         = (Ok t, token_written (token "ABC" "#ff3a3a" "#ffffff") empty_store)
         ∧ field t "code" = Str "ABC"
         ∧ field t "color" = Str "#ff3a3a"
         ∧ field t "textcolor" = Str "#ffffff".
Proof.
  split; [reflexivity|].
  apply (getSecurityToken_after_set (token "ABC" "#ff3a3a" "#ffffff") empty_store _ true).
  reflexivity.
Defined.

(** A token whose colour is not a hex colour is refused. *)
Example setSecurityToken_bad_color :
  setSecurityToken (token "ABC" "red" "#ffffff") empty_store
  = (Throw (mkError "This is not a valid token color: red"), empty_store).
Proof. reflexivity. Qed.

(** The quick access logs in while the settings sync fails. *)
Lemma sync_failure_is_absorbed_witness :
  let run := login sync_fails "passphrase" (Bool false) Undefined
               (controller quickaccess, page) in
  settings_sync sync_fails = Throw (mkError "Service unavailable")
  ∧ fst run = Ok tt
  ∧ trace (snd (snd run))
    = [CsrfFetch; CryptoLogin "passphrase"; IsLoggedIn; SettingsSync;
       ConsoleError "User settings sync failed"; ConsoleError "Service unavailable";
       SetDefaults; PassboltAppInit;
       Emit (PortId 3) "request-1" [Str "SUCCESS"]].
Proof.
  cbn zeta. split; [reflexivity|]. split; [|reflexivity].
  apply (sync_failure_is_absorbed sync_fails (controller quickaccess) page
           "passphrase" (Bool false) Undefined (controller quickaccess) page
           (mkError "Service unavailable")); reflexivity.
Defined.

(** The claim C3 as it was stated fails: the quick access asks to
    remember, the passphrase verifies, the MFA check throws, and nothing
    is remembered. *)
Lemma remember_lost_when_mfa_fails :
  let run := login mfa_required "passphrase" (Num 300) Undefined
               (controller quickaccess, page) in
  truthy (Num 300) = true
  ∧ auth_login mfa_required "passphrase" = Ok tt
  ∧ remembered (snd (snd run)) = None
  ∧ trace (snd (snd run))
    = [CsrfFetch; CryptoLogin "passphrase"; IsLoggedIn;
       Emit (PortId 3) "request-1"
         [Str "ERROR"; getEmitableError (mkError "MFA authentication is required.")]].
Proof. cbn zeta. repeat split; reflexivity. Qed.

(** With the MFA check passed, the passphrase is remembered although the
    settings sync fails. *)
Lemma remembered_after_fatal_steps_witness :
  let run := login sync_fails "passphrase" (Num 300) Undefined
               (controller quickaccess, page) in
  truthy (Num 300) = true
  ∧ remembered (snd (snd run)) = Some ("passphrase", Num 300)
  ∧ StoreMasterPassword "passphrase" (Num 300) ∈ events_since page (snd (snd run)).
Proof.
  cbn zeta. split; [reflexivity|].
  apply (remembered_after_fatal_steps sync_fails (controller quickaccess) page
           "passphrase" (Num 300) Undefined (controller quickaccess) page);
    reflexivity.
Defined.

(** The claim C4 as it was stated fails: a pagemod worker that is not the
    login form logs in without an MFA check. *)
Lemma no_mfa_check_for_other_pagemod :
  let run := login all_ok "passphrase" (Bool false) Undefined
               (controller otherPageMod, page) in
  is_AuthForm otherPageMod = false
  ∧ trace (snd (snd run))
    = [CsrfFetch; CryptoLogin "passphrase"; SettingsSync; PassboltAppInit;
       Emit (PortId 4) "request-1" [Str "SUCCESS"]]
  ∧ IsLoggedIn ∉ trace (snd (snd run)).
Proof.
  cbn zeta. split; [reflexivity|]. split; [reflexivity|].
  intros Hin. apply list_elem_of_In in Hin. vm_compute in Hin.
  intuition discriminate.
Qed.

(** The quick access has its MFA check made. *)
Lemma mfa_check_iff_no_pagemod_witness :
  IsLoggedIn ∈ events_since page
    (snd (snd (login all_ok "passphrase" (Bool false) Undefined
                 (controller quickaccess, page)))).
Proof.
  exact (proj2 (proj1 (mfa_check_iff_no_pagemod all_ok (controller quickaccess) page
                         "passphrase" (Bool false) Undefined)
                  eq_refl eq_refl) eq_refl).
Defined.

(** The login form of tab 7 logs in with the redirect [/foo]. *)
Lemma login_success_redirect_witness :
  let run := login all_ok "passphrase" (Bool false) (Str "/foo")
               (controller authForm, page) in
  completed page run
  ∧ ∃ p url,
      workers page !! ("Auth", 7) = Some p
      ∧ URL_href "https://example.org/foo" = Some url
      ∧ emits (events_since page (snd (snd run)))
        = [Emit p "passbolt.auth.login-processing" [Str "Logging in"];
           Emit p "passbolt.auth.login-success" [Str "You are now logged in!"; Str url]].
Proof.
  cbn zeta. split; [by split|].
  exact (login_success_redirect all_ok (controller authForm) page
           "passphrase" (Bool false) (Str "/foo")
           eq_refl eq_refl eq_refl (conj eq_refl eq_refl)).
Defined.

Example redirect_foo :
  emits (trace (snd (snd (login all_ok "passphrase" (Bool false) (Str "/foo")
                            (controller authForm, page)))))
  = [Emit (PortId 1) "passbolt.auth.login-processing" [Str "Logging in"];
     Emit (PortId 1) "passbolt.auth.login-success"
       [Str "You are now logged in!"; Str "https://example.org/foo"]].
Proof. reflexivity. Qed.

Example redirect_omitted :
  emits (trace (snd (snd (login all_ok "passphrase" (Bool false) Undefined
                            (controller authForm, page)))))
  = [Emit (PortId 1) "passbolt.auth.login-processing" [Str "Logging in"];
     Emit (PortId 1) "passbolt.auth.login-success"
       [Str "You are now logged in!"; Str "https://example.org/"]].
Proof. reflexivity. Qed.

Example redirect_not_rooted :
  emits (trace (snd (snd (login all_ok "passphrase" (Bool false) (Str "foo")
                            (controller authForm, page)))))
  = [Emit (PortId 1) "passbolt.auth.login-processing" [Str "Logging in"];
     Emit (PortId 1) "passbolt.auth.login-success"
       [Str "You are now logged in!"; Str "https://example.org/"]].
Proof. reflexivity. Qed.

End Instances.

Section DialogInstances.
Import MasterPassword Sample.

Example three_failures :
  effects (snd (masterCompleteHandler (Str "token-1") (Str "ERROR") 1 bound_dialog))
  = [RemoveClass submitButton "processing"; Focus masterPasswordField;
     SetHtml passphraseLabel "Please enter a valid passphrase.";
     AddClass passphraseLabel "error"]
  ∧ effects (snd (masterCompleteHandler (Str "token-1") (Str "ERROR") 2 bound_dialog))
    = [RemoveClass submitButton "processing"; Focus masterPasswordField;
       SetHtml passphraseLabel "Please enter a valid passphrase.";
       AddClass passphraseLabel "error"]
  ∧ effects (snd (masterCompleteHandler (Str "token-1") (Str "ERROR") 3 bound_dialog))
    = [RemoveClass submitButton "processing"; Focus masterPasswordField;
       LoadTemplate ".js_dialog_content" "./tpl/master/master-password-failure.ejs"].
Proof. repeat split; reflexivity. Qed.

Example remember_click :
  effects (snd (submitButtonClicked bound_dialog))
  = [Request "passbolt.user.rememberMasterPassword" [Str "passphrase"; Num 300];
     AddClass submitButton "processing";
     PortEmit "passbolt.keyring.master.request.submit" [Str "token-1"; Str "passphrase"]].
Proof. reflexivity. Qed.

Example remember_click_unbound :
  submitButtonClicked unbound_dialog
  = (Throw (ReferenceError "masterPassword"), unbound_dialog).
Proof. reflexivity. Qed.

End DialogInstances.

(** ** The further properties on the sample collaborators *)

Section FurtherInstances.
Import Auth LoginSpec Settings MasterPassword Sample.

(** A store that trusts [https://example.org] under the key of the
    settings. *)
Lemma getDomain_after_set_witness :
  setDomain isURL (Str "https://example.org") empty_store
  = (Ok tt, with_config (insert "trustedDomain" (Str "https://example.org")) empty_store)
  ∧ getDomain debug_off
      (with_config (insert "trustedDomain" (Str "https://example.org")) empty_store)
    = (Ok (Str "https://example.org"),
       with_config (insert "trustedDomain" (Str "https://example.org")) empty_store).
Proof.
  split; [reflexivity|].
  exact (getDomain_after_set debug_off isURL (Str "https://example.org")
           empty_store _ tt eq_refl).
Defined.

Lemma getDomain_defined_witness :
  typeof_undefined (Str "https://example.org") = false
  ∧ with_config (insert "trustedDomain" (Str "https://example.org")) empty_store
    = with_config (insert "trustedDomain" (Str "https://example.org")) empty_store.
Proof.
  exact (getDomain_defined debug_off
           (with_config (insert "trustedDomain" (Str "https://example.org")) empty_store)
           _ (Str "https://example.org") eq_refl).
Defined.

Example getDomain_unset :
  getDomain debug_off empty_store
  = (Throw (mkError "Trusted domain is not set"), empty_store).
Proof. reflexivity. Qed.

Example isValid_empty : isValid debug_off empty_store = (Ok false, empty_store).
Proof. reflexivity. Qed.

Lemma isValid_after_setup_witness :
  isValid debug_off
    (with_config (insert "trustedDomain" (Str "https://example.org"))
       (token_written (token "ABC" "#ff3a3a" "#ffffff") empty_store))
  = (Ok true,
     with_config (insert "trustedDomain" (Str "https://example.org"))
       (token_written (token "ABC" "#ff3a3a" "#ffffff") empty_store)).
Proof.
  exact (proj1 (isValid_after_setup debug_off isURL
                  (token "ABC" "#ff3a3a" "#ffffff") (Str "https://example.org")
                  empty_store)
           _ _ true tt eq_refl eq_refl).
Defined.

Lemma setSecurityToken_of_stored_witness :
  setSecurityToken (token "ABC" "#ff3a3a" "#ffffff")
    (token_written (token "ABC" "#ff3a3a" "#ffffff") empty_store)
  = (Ok true, token_written (token "ABC" "#ff3a3a" "#ffffff") empty_store).
Proof.
  exact (setSecurityToken_of_stored
           (token_written (token "ABC" "#ff3a3a" "#ffffff") empty_store) _
           (token "ABC" "#ff3a3a" "#ffffff") eq_refl eq_refl).
Defined.

(** The quick access is answered once. *)
Lemma requester_is_answered_witness :
  let run := login mfa_required "passphrase" (Bool false) Undefined
               (controller quickaccess, page) in
  is_AuthForm quickaccess = false
  ∧ fst run = Ok tt
  ∧ emits (events_since page (snd (snd run)))
    = [Emit (PortId 3) "request-1"
         [Str "ERROR"; getEmitableError (mkError "MFA authentication is required.")]].
Proof.
  cbn zeta. split; [reflexivity|].
  exact (requester_is_answered mfa_required (controller quickaccess) page
           "passphrase" (Bool false) Undefined eq_refl).
Defined.

(** The same login with the settings sync passing and failing. *)
Lemma sync_outcome_is_invisible_witness :
  let run := login all_ok "passphrase" (Num 300) Undefined
               (controller quickaccess, page) in
  let run' := login sync_fails "passphrase" (Num 300) Undefined
                (controller quickaccess, page) in
  settings_sync all_ok ≠ settings_sync sync_fails
  ∧ fst run = fst run'
  ∧ fst (snd run) = fst (snd run')
  ∧ emits (events_since page (snd (snd run)))
    = emits (events_since page (snd (snd run')))
  ∧ remembered (snd (snd run)) = remembered (snd (snd run'))
  ∧ unhandled (snd (snd run)) = unhandled (snd (snd run')).
Proof.
  cbn zeta. split; [discriminate|].
  exact (sync_outcome_is_invisible all_ok sync_fails (controller quickaccess) page
           "passphrase" (Num 300) Undefined eq_refl eq_refl eq_refl eq_refl).
Defined.

(** The login form of a tab without ['Auth'] worker. *)
Lemma login_form_without_auth_worker_witness :
  workers page_without_auth !! ("Auth", 7) = None
  ∧ ∃ e, login all_ok "passphrase" (Bool false) Undefined
           (controller authForm, page_without_auth)
         = (Throw e, (recorded (controller authForm), page_without_auth)).
Proof.
  split; [reflexivity|].
  exact (login_form_without_auth_worker all_ok (controller authForm)
           page_without_auth "passphrase" (Bool false) Undefined eq_refl eq_refl).
Defined.

(** The quick access logs in and the application fails to start. *)
Lemma application_start_failure_is_silent_witness :
  let run := login init_fails "passphrase" (Num 300) Undefined
               (controller quickaccess, page) in
  fst run = Ok tt
  ∧ emits (events_since page (snd (snd run))) = []
  ∧ unhandled (snd (snd run)) = [mkError "Could not start the application"]
  ∧ remembered (snd (snd run)) = Some ("passphrase", Num 300).
Proof.
  exact (application_start_failure_is_silent init_fails (controller quickaccess) page
           "passphrase" (Num 300) Undefined (controller quickaccess) page
           (mkError "Could not start the application") eq_refl eq_refl eq_refl).
Defined.

Example verify_from_login_form :
  trace (snd (snd (verify (Throw (mkError "Bad signature")) (controller authForm, page))))
  = [Emit (PortId 2) "request-1"
       [Str "ERROR"; Str "Could not verify server key. Bad signature"]].
Proof. reflexivity. Qed.

Example enter_with_box_checked :
  effects (snd (masterPasswordFieldKeypressed 13 bound_dialog))
  = [AddClass submitButton "processing";
     PortEmit "passbolt.keyring.master.request.submit" [Str "token-1"; Str "passphrase"]].
Proof. reflexivity. Qed.

Example typed_letter :
  masterPasswordField_val
    (snd (focusFirstFieldKeypressed {| keyCode := 0; which := 97 |} bound_dialog))
  = "a".
Proof. reflexivity. Qed.

Example focus_on_third_firing :
  effects (snd (stealFocus [false; false; true; true] unchecked_dialog))
  = [MessageEmit "passbolt.passbolt-page.remove_all_focuses" [];
     Focus focusFirstField; Focus focusFirstField; Focus focusFirstField].
Proof. reflexivity. Qed.

(** The login form of tab 7 is told of a success on the success channel,
    with the redirect URL, and of a failed CSRF fetch on the failure
    channel; the quick access gets its answer on its own port. *)
Lemma login_outcome_routing_witness :
  (deliverable all_ok (controller authForm) page "passphrase" (Str "/foo")
   ∧ ∃ p outcome,
       workers page !! ("Auth", 7) = Some p
       ∧ emits (events_since page
                  (snd (snd (login all_ok "passphrase" (Bool false) (Str "/foo")
                               (controller authForm, page)))))
         = [Emit p "passbolt.auth.login-processing" [Str "Logging in"]; outcome]
       ∧ ∃ url, URL_href "https://example.org/foo" = Some url
                ∧ outcome = Emit p "passbolt.auth.login-success"
                              [Str "You are now logged in!"; Str url])
  ∧ (∃ p outcome,
       workers page !! ("Auth", 7) = Some p
       ∧ emits (events_since page
                  (snd (snd (login csrf_fails "passphrase" (Bool false) Undefined
                               (controller authForm, page)))))
         = [Emit p "passbolt.auth.login-processing" [Str "Logging in"]; outcome]
       ∧ outcome = Emit p "passbolt.auth.login-failed" [Str "Network error"])
  ∧ emits (events_since page
             (snd (snd (login all_ok "passphrase" (Bool false) Undefined
                          (controller quickaccess, page)))))
    = [Emit (PortId 3) "request-1" [Str "SUCCESS"]].
Proof.
  assert (deliverable all_ok (controller authForm) page "passphrase" (Str "/foo"))
    as Hform by (split; [by eexists | intros _; split; [done | by eexists]]).
  assert (deliverable csrf_fails (controller authForm) page "passphrase" Undefined)
    as Hfailed by (split; [by eexists | intros [=]]).
  assert (deliverable all_ok (controller quickaccess) page "passphrase" Undefined)
    as Hquick by (split; [intros [=] | intros _; split; [done | intros [=]]]).
  split; [split; [exact Hform|] |split].
  - exact (proj1 (proj2 (login_outcome_routing all_ok (controller authForm) page
                           "passphrase" (Bool false) (Str "/foo"))) Hform).
  - exact (proj1 (proj2 (login_outcome_routing csrf_fails (controller authForm) page
                           "passphrase" (Bool false) Undefined)) Hfailed).
  - exact (proj1 (proj2 (login_outcome_routing all_ok (controller quickaccess) page
                           "passphrase" (Bool false) Undefined)) Hquick).
Defined.

(** The dialog as the script leaves it, with the remember box checked. *)
Lemma remember_request_not_sent_witness :
  global_masterPassword unbound_dialog = None
  ∧ rememberMasterPassword Undefined unbound_dialog
    = (Throw (ReferenceError "masterPassword"), unbound_dialog)
  ∧ (remember_checked unbound_dialog = true →
     submitButtonClicked unbound_dialog
     = (Throw (ReferenceError "masterPassword"), unbound_dialog)).
Proof.
  split; [reflexivity|].
  exact (remember_request_not_sent Undefined unbound_dialog eq_refl).
Defined.

End FurtherInstances.
